(** * Aurorae Haven: the embedded offline server (scripts/embedded-server.py)

    A shallow embedding of the Python script and of the parts of the CPython
    standard library it drives (socketserver, webbrowser, mimetypes,
    http.server), followed by the properties of the script's lifecycle,
    of its MIME table and of its request handler.

    Conventions.
    - The calls the script makes into the operating system and the standard
      library ([os.chdir], [socketserver.TCPServer(...)], [webbrowser.open],
      [httpd.serve_forever]) are answered by a [world]: a record that fixes,
      for one run, whether each call returns or raises, and what.
    - [main] is written in a small monad that threads the process state and
      carries Python's control outcomes: a value, a raised exception, a
      pending [sys.exit], or a call that never returns.
    - Everything the process does that can be observed is appended to a
      trace of [event]s, in program order. *)

From Stdlib Require Import ZArith String List Ascii Lia.
From stdpp Require Import base strings gmap list pretty.

Open Scope string_scope.
Open Scope Z_scope.
Open Scope list_scope.

(** ** Python values used by the script *)

Module Py.

(** The line feed written [\n] in the Python source. *)
Definition NL : string := String (ascii_of_nat 10) "".

(** [str(n)] for an integer. *)
Definition str (n : Z) : string := pretty n.

(** [s * n] for a string. *)
Fixpoint str_mul (s : string) (n : nat) : string :=
  match n with
  | O => ""
  | S k => s +:+ str_mul s k
  end.

(** The exception classes that matter to the script's handlers.
    [OSError] stands for the class and all its subclasses; [msg] is
    [str(e)].  [OtherException] is any subclass of [Exception] that is not
    an [OSError] ([webbrowser.Error], [MemoryError], ...).
    [KeyboardInterrupt] derives from [BaseException] only.  *)
Inductive exn : Type :=
| OSError (errno : option Z) (msg : string)
| KeyboardInterrupt
| OtherException (cls msg : string).



Definition isinstance_Exception (e : exn) : bool :=
  match e with
  | OSError _ _ | OtherException _ _ => true
  | KeyboardInterrupt => false
  end.

(** [str(e)]. *)
Definition exn_str (e : exn) : string :=
  match e with
  | OSError _ msg => msg
  | KeyboardInterrupt => ""
  | OtherException _ msg => msg
  end.

(** What a call into the library does: it returns or it raises. *)
Inductive result (A : Type) : Type :=
| Ret (a : A)
| Raise (e : exn).
Arguments Ret {A} a.
Arguments Raise {A} e.

(** [pathlib.Path]: the anchor (drive and root) and the components after
    it. *)
Record Path : Type := { anchor : string; tail : list string }.

(** [Path.parent]: drops the last component; a path without components is
    its own parent. *)
Definition parent (p : Path) : Path :=
  {| anchor := anchor p; tail := removelast (tail p) |}.

End Py.
Import Py.

(** ** The process and its environment *)

(** The operating systems Python runs the script on.  They differ in the
    number behind [errno.EADDRINUSE]. *)
Inductive os : Type := Linux | MacOS | Windows.

(** [errno.EADDRINUSE] on each system (on Windows it is [WSAEADDRINUSE]). *)
Definition errno_EADDRINUSE (p : os) : Z :=
  match p with
  | Linux => 98
  | MacOS => 48
  | Windows => 10048
  end.

Record world : Type := {
  platform : os;
  (** inputs the process could read: command line and environment *)
  argv : list string;
  environ : list (string * string);
  (** [__file__] of the running script *)
  __file__ : Path;
  (** the working directory the process was started in *)
  initial_cwd : Path;
  (** [os.chdir(p)] *)
  os_chdir : Path -> result unit;
  (** [socketserver.TCPServer((host, port), handler)]: creates the socket,
      binds and listens; on failure it closes the socket and raises. *)
  TCPServer_init : string -> Z -> result unit;
  (** [webbrowser.open(url)]: returns whether a browser was launched. *)
  webbrowser_open : string -> result bool;
  (** [httpd.serve_forever()]: the loop leaves only by an exception, since
      nothing in the program calls [httpd.shutdown()]; [None] is the loop
      that runs forever. *)
  serve_forever_raises : option exn
}.

(** What the process does, in order.  [EvBind] and [EvServeForever] record
    the working directory at that moment: the request handler serves files
    from [os.getcwd()]. *)
Inductive event : Type :=
| EvChdir (p : Path)
| EvPrint (line : string)
| EvBind (host : string) (port : Z) (cwd : Path)
| EvBrowserOpen (url : string)
| EvServeForever (cwd : Path)
| EvServerClose.

Record proc : Type := { cwd : Path; trace : list event }.

Definition emit (ev : event) (s : proc) : proc :=
  {| cwd := cwd s; trace := trace s ++ [ev] |}.

(** Control outcomes of a Python computation. *)
Inductive res (A : Type) : Type :=
| Val (a : A)            (* returned *)
| Raised (e : exn)       (* an exception is propagating *)
| Exiting (code : Z)     (* [sys.exit(code)]: SystemExit is propagating *)
| Blocked.               (* the call never returns *)
Arguments Val {A} a.
Arguments Raised {A} e.
Arguments Exiting {A} code.
Arguments Blocked {A}.

Definition M (A : Type) : Type := proc -> res A * proc.

#[global] Instance M_ret : MRet M := fun A a s => (Val a, s).

#[global] Instance M_bind : MBind M := fun A B f m s =>
  match m s with
  | (Val a, s') => f a s'
  | (Raised e, s') => (Raised e, s')
  | (Exiting c, s') => (Exiting c, s')
  | (Blocked, s') => (Blocked, s')
  end.

(** [try: body  except ...:]  The handlers are tried on a raised exception;
    [None] means no clause matches and the exception keeps propagating.
    [SystemExit] is not an [OSError], a [KeyboardInterrupt] or an
    [Exception], so no clause of the script catches it. *)
Definition try_except {A} (body : M A) (handlers : exn -> option (M A)) : M A :=
  fun s =>
    match body s with
    | (Raised e, s') =>
        match handlers e with
        | Some h => h s'
        | None => (Raised e, s')
        end
    | r => r
    end.

Definition lift {A} (r : result A) : M A :=
  fun s => match r with
           | Ret a => (Val a, s)
           | Raise e => (Raised e, s)
           end.

Definition print (line : string) : M unit :=
  fun s => (Val tt, emit (EvPrint line) s).

Definition sys_exit (code : Z) : M unit :=
  fun s => (Exiting code, s).

Section Program.

Variable w : world.

Definition chdir (p : Path) : M unit :=
  fun s =>
    match os_chdir w p with
    | Ret _ => (Val tt, {| cwd := p; trace := trace s ++ [EvChdir p] |})
    | Raise e => (Raised e, emit (EvChdir p) s)
    end.

Definition TCPServer (host : string) (port : Z) : M unit :=
  fun s => lift (TCPServer_init w host port) (emit (EvBind host port (cwd s)) s).

(** [with TCPServer(...) as httpd: body].  [__exit__] calls
    [server_close()] on every way out of the body. *)
Definition with_TCPServer {A} (host : string) (port : Z) (body : M A) : M A :=
  fun s =>
    match TCPServer host port s with
    | (Val _, s1) =>
        match body s1 with
        | (Blocked, s2) => (Blocked, s2)
        | (r, s2) => (r, emit EvServerClose s2)
        end
    | (Raised e, s1) => (Raised e, s1)
    | (Exiting c, s1) => (Exiting c, s1)
    | (Blocked, s1) => (Blocked, s1)
    end.

Definition browser_open (url : string) : M bool :=
  fun s => lift (webbrowser_open w url) (emit (EvBrowserOpen url) s).

Definition serve_forever : M unit :=
  fun s =>
    match serve_forever_raises w with
    | Some e => (Raised e, emit (EvServeForever (cwd s)) s)
    | None => (Blocked, emit (EvServeForever (cwd s)) s)
    end.

(** *** The script *)

Definition PORT : Z := 8765.
Definition HOST : string := "127.0.0.1".

Definition EADDRINUSE_MACOS : Z := 48.
Definition EADDRINUSE_LINUX : Z := 98.

(** [e.errno in (EADDRINUSE_MACOS, EADDRINUSE_LINUX)] *)
Definition errno_in_use (errno : option Z) : bool :=
  match errno with
  | Some n => Z.eqb n EADDRINUSE_MACOS || Z.eqb n EADDRINUSE_LINUX
  | None => false
  end.

Definition main : M unit :=
  let script_dir := parent (__file__ w) in
  chdir script_dir ;;
  print (str_mul "=" 60) ;;
  print "🌌 Aurorae Haven - Offline Server (Python)" ;;
  print (str_mul "=" 60) ;;
  print "" ;;
  try_except
    (with_TCPServer HOST PORT
       (let url := "http://" +:+ HOST +:+ ":" +:+ str PORT in
        print ("✓ Server running at: " +:+ url) ;;
        print "✓ Opening in your default browser..." ;;
        print (NL +:+ "Press Ctrl+C to stop the server" +:+ NL) ;;
        try_except
          (browser_open url ;; mret tt)
          (fun e =>
             if isinstance_Exception e then
               Some (print "Failed to open browser automatically." ;;
                     print ("Please open your browser and navigate to: " +:+ url))
             else None) ;;
        serve_forever))
    (fun e =>
       match e with
       | OSError errno _ =>
           Some (if errno_in_use errno then
                   print (NL +:+ "❌ Port " +:+ str PORT +:+ " is already in use.") ;;
                   print ("Please close the other application or use a different port." +:+ NL) ;;
                   sys_exit 1
                 else
                   print ("Server error: " +:+ exn_str e) ;;
                   sys_exit 1)
       | KeyboardInterrupt =>
           Some (print (NL +:+ NL +:+ "👋 Shutting down server...") ;;
                 print "✓ Server stopped" ;;
                 sys_exit 0)
       | _ => None
       end).

(** *** Running the script as [__main__] *)

(** How the process ends: with an exit status, with an exception that
    nothing caught (the interpreter prints a traceback and the status is
    not zero), or not at all. *)
Inductive outcome : Type :=
| Exited (status : Z)
| Uncaught (e : exn)
| Serving.

Definition run : outcome * list event :=
  match main {| cwd := initial_cwd w; trace := [] |} with
  | (Val _, s) => (Exited 0, trace s)
  | (Exiting c, s) => (Exited c, trace s)
  | (Raised e, s) => (Uncaught e, trace s)
  | (Blocked, s) => (Serving, trace s)
  end.

End Program.

(** ** The lifecycle, case by case *)

(** The URL announced by the script and handed to the browser. *)
Definition server_url : string := "http://127.0.0.1:8765".

(** The directory the script lives in. *)
Definition script_dir (w : world) : Path := parent (__file__ w).

(** What every run starts with: the change of directory and the banner. *)
Definition startup_trace (w : world) : list event :=
  [ EvChdir (script_dir w);
    EvPrint (str_mul "=" 60);
    EvPrint "🌌 Aurorae Haven - Offline Server (Python)";
    EvPrint (str_mul "=" 60);
    EvPrint "" ].

(** What a successful bind is followed by. *)
Definition announce_trace (w : world) : list event :=
  [ EvBind HOST PORT (script_dir w);
    EvPrint "✓ Server running at: http://127.0.0.1:8765";
    EvPrint "✓ Opening in your default browser...";
    EvPrint (NL +:+ "Press Ctrl+C to stop the server" +:+ NL);
    EvBrowserOpen server_url ].

Definition browser_warning : list event :=
  [ EvPrint "Failed to open browser automatically.";
    EvPrint "Please open your browser and navigate to: http://127.0.0.1:8765" ].

Definition port_in_use_message : list event :=
  [ EvPrint (NL +:+ "❌ Port 8765 is already in use.");
    EvPrint ("Please close the other application or use a different port." +:+ NL) ].

Definition shutdown_message : list event :=
  [ EvPrint (NL +:+ NL +:+ "👋 Shutting down server...");
    EvPrint "✓ Server stopped" ].

(** The clauses of the outer [try], applied to an exception that reached
    them with the trace [t]. *)
Definition top_level (e : exn) (t : list event) : outcome * list event :=
  match e with
  | OSError errno msg =>
      if errno_in_use errno
      then (Exited 1, t ++ port_in_use_message)
      else (Exited 1, t ++ [EvPrint ("Server error: " +:+ msg)])
  | KeyboardInterrupt => (Exited 0, t ++ shutdown_message)
  | OtherException _ _ => (Uncaught e, t)
  end.

(** The serve loop, entered with the trace [t]. *)
Definition serve_phase (w : world) (t : list event) : outcome * list event :=
  match serve_forever_raises w with
  | None => (Serving, t ++ [EvServeForever (script_dir w)])
  | Some e => top_level e (t ++ [EvServeForever (script_dir w); EvServerClose])
  end.

(** [run], as a decision tree over the answers of the world. *)
Definition run_cases (w : world) : outcome * list event :=
  match os_chdir w (script_dir w) with
  | Raise e => (Uncaught e, [EvChdir (script_dir w)])
  | Ret _ =>
      match TCPServer_init w HOST PORT with
      | Raise e => top_level e (startup_trace w ++ [EvBind HOST PORT (script_dir w)])
      | Ret _ =>
          let t := startup_trace w ++ announce_trace w in
          match webbrowser_open w server_url with
          | Ret _ => serve_phase w t
          | Raise e =>
              if isinstance_Exception e
              then serve_phase w (t ++ browser_warning)
              else top_level e (t ++ [EvServerClose])
          end
      end
  end.


(** The addresses the process tried to bind, in order. *)
Fixpoint bound_addresses (t : list event) : list (string * Z) :=
  match t with
  | [] => []
  | EvBind host port _ :: t' => (host, port) :: bound_addresses t'
  | _ :: t' => bound_addresses t'
  end.

(** Whether the serve loop was entered. *)
Fixpoint served (t : list event) : bool :=
  match t with
  | [] => false
  | EvServeForever _ :: _ => true
  | _ :: t' => served t'
  end.

(** An interrupt was delivered to the process inside the outer [try]. *)
Definition interrupted (w : world) : Prop :=
  TCPServer_init w HOST PORT = Raise KeyboardInterrupt
  \/ webbrowser_open w server_url = Raise KeyboardInterrupt
  \/ serve_forever_raises w = Some KeyboardInterrupt.


(** *** Sample worlds *)

(** Everything works and nobody interrupts: the server runs forever. *)
Definition quiet_world : world := {|
  platform := Linux;
  argv := ["embedded-server.py"];
  environ := [];
  __file__ := {| anchor := "/"; tail := ["opt"; "haven"; "embedded-server.py"] |};
  initial_cwd := {| anchor := "/"; tail := ["home"; "user"] |};
  os_chdir := fun _ => Ret tt;
  TCPServer_init := fun _ _ => Ret tt;
  webbrowser_open := fun _ => Ret true;
  serve_forever_raises := None
|}.

Definition with_platform (p : os) (w : world) : world :=
  {| platform := p; argv := argv w; environ := environ w;
     __file__ := __file__ w; initial_cwd := initial_cwd w;
     os_chdir := os_chdir w; TCPServer_init := TCPServer_init w;
     webbrowser_open := webbrowser_open w;
     serve_forever_raises := serve_forever_raises w |}.

Definition with_inputs (a : list string) (v : list (string * string)) (w : world) : world :=
  {| platform := platform w; argv := a; environ := v;
     __file__ := __file__ w; initial_cwd := initial_cwd w;
     os_chdir := os_chdir w; TCPServer_init := TCPServer_init w;
     webbrowser_open := webbrowser_open w;
     serve_forever_raises := serve_forever_raises w |}.


Definition with_bind (r : result unit) (w : world) : world :=
  {| platform := platform w; argv := argv w; environ := environ w;
     __file__ := __file__ w; initial_cwd := initial_cwd w;
     os_chdir := os_chdir w; TCPServer_init := fun _ _ => r;
     webbrowser_open := webbrowser_open w;
     serve_forever_raises := serve_forever_raises w |}.

Definition with_browser (r : result bool) (w : world) : world :=
  {| platform := platform w; argv := argv w; environ := environ w;
     __file__ := __file__ w; initial_cwd := initial_cwd w;
     os_chdir := os_chdir w; TCPServer_init := TCPServer_init w;
     webbrowser_open := fun _ => r;
     serve_forever_raises := serve_forever_raises w |}.

Definition with_serve (r : option exn) (w : world) : world :=
  {| platform := platform w; argv := argv w; environ := environ w;
     __file__ := __file__ w; initial_cwd := initial_cwd w;
     os_chdir := os_chdir w; TCPServer_init := TCPServer_init w;
     webbrowser_open := webbrowser_open w;
     serve_forever_raises := r |}.

(** Port 8765 is held by another process, on Linux and on Windows. *)
Definition linux_port_busy : world :=
  with_bind (Raise (OSError (Some 98) "[Errno 98] Address already in use"))
            quiet_world.

Definition windows_port_busy : world :=
  with_bind
    (Raise (OSError (Some 10048)
       "[WinError 10048] Only one usage of each socket address (protocol/network address/port) is normally permitted"))
    (with_platform Windows quiet_world).

(** Binding fails for another reason. *)
Definition bind_denied : world :=
  with_bind (Raise (OSError (Some 13) "[Errno 13] Permission denied")) quiet_world.


(** The user presses Ctrl-C while the server runs. *)
Definition ctrl_c : world := with_serve (Some KeyboardInterrupt) quiet_world.

(** There is no usable browser: [webbrowser.open] raises, or returns
    [False]. *)
Definition browser_raises : world :=
  with_browser (Raise (OtherException "webbrowser.Error" "could not locate runnable browser"))
               quiet_world.

Definition browser_false : world := with_browser (Ret false) quiet_world.

(** The working directories recorded when the process bound the socket and
    when it entered the serve loop. *)
Fixpoint roots_used (t : list event) : list Path :=
  match t with
  | [] => []
  | EvBind _ _ d :: t' => d :: roots_used t'
  | EvServeForever d :: t' => d :: roots_used t'
  | _ :: t' => roots_used t'
  end.

(** ** Strings, as the standard library's path and header code uses them *)

Module Str.

Definition CRLF : string := String (ascii_of_nat 13) (String (ascii_of_nat 10) "").

(** [c.lower()] on the ASCII letters. *)
Definition lower_ascii (c : ascii) : ascii :=
  let n := nat_of_ascii c in
  if (Nat.leb 65 n && Nat.leb n 90)%bool then ascii_of_nat (n + 32) else c.

(** [s.lower()] *)
Fixpoint lower (s : string) : string :=
  match s with
  | "" => ""
  | String c s' => String (lower_ascii c) (lower s')
  end.

(** [s.rfind(c)], counting positions from [i]: the index of the last
    occurrence, -1 when there is none. *)
Fixpoint rfind_from (c : ascii) (s : string) (i : Z) : Z :=
  match s with
  | "" => -1
  | String a s' =>
      let r := rfind_from c s' (i + 1) in
      if 0 <=? r then r else if Ascii.eqb a c then i else -1
  end.

Definition rfind (c : ascii) (s : string) : Z := rfind_from c s 0.

(** [s.find(c)]: the index of the first occurrence, -1 when there is
    none. *)
Fixpoint find_char_from (c : ascii) (s : string) (i : Z) : Z :=
  match s with
  | "" => -1
  | String a s' => if Ascii.eqb a c then i else find_char_from c s' (i + 1)
  end.

Definition find_char (c : ascii) (s : string) : Z := find_char_from c s 0.

(** [s[:i]] and [s[i:]] for [0 <= i]. *)
Definition slice_to (i : Z) (s : string) : string :=
  substring 0 (Z.to_nat i) s.
Definition slice_from (i : Z) (s : string) : string :=
  substring (Z.to_nat i) (String.length s - Z.to_nat i) s.

(** [s.startswith(p)] and [s.endswith(p)] *)
Definition startswith (p s : string) : bool := String.prefix p s.
Definition endswith (p s : string) : bool :=
  let n := String.length s in
  let k := String.length p in
  (Nat.leb k n && String.eqb (substring (n - k) k s) p)%bool.

(** [s.split(c)] for a separator of one character. *)
Fixpoint split_char (c : ascii) (s : string) : list string :=
  match s with
  | "" => [""]
  | String a s' =>
      if Ascii.eqb a c then "" :: split_char c s'
      else match split_char c s' with
           | w :: ws => String a w :: ws
           | [] => [String a ""]
           end
  end.

(** [s.lstrip(c)] *)
Fixpoint lstrip (c : ascii) (s : string) : string :=
  match s with
  | String a s' => if Ascii.eqb a c then lstrip c s' else s
  | "" => ""
  end.

(** [posixpath.splitext]: the loop of [genericpath._splitext] that skips
    the leading dots of the file name, started at [filenameIndex] with
    [n] positions left before [dotIndex]; [true] when a character other
    than the dot is met. *)
Fixpoint name_before_dot (p : string) (filenameIndex : nat) (n : nat) : bool :=
  match n with
  | O => false
  | S n' =>
      match String.get filenameIndex p with
      | Some c =>
          if Ascii.eqb c "." then name_before_dot p (S filenameIndex) n'
          else true
      | None => true
      end
  end.

Definition splitext (p : string) : string * string :=
  let sepIndex := rfind "/" p in
  let dotIndex := rfind "." p in
  if (sepIndex <? dotIndex)
     && name_before_dot p (Z.to_nat (sepIndex + 1))
                        (Z.to_nat (dotIndex - (sepIndex + 1)))
  then (slice_to dotIndex p, slice_from dotIndex p)
  else (p, "").

(** [urllib.parse._splittype]: a non-empty prefix free of slash and colon,
    followed by a colon, is split off as the scheme.  [scan_scheme] walks
    the longest such prefix. *)
Fixpoint scan_scheme (s : string) : option (string * string) :=
  match s with
  | "" => None
  | String c s' =>
      if Ascii.eqb c ":" then Some ("", s')
      else if Ascii.eqb c "/" then None
      else match scan_scheme s' with
           | Some (scheme, data) => Some (String c scheme, data)
           | None => None
           end
  end.

Definition _splittype (url : string) : option string * string :=
  match scan_scheme url with
  | Some (String c scheme, data) => (Some (lower (String c scheme)), data)
  | _ => (None, url)
  end.

End Str.
Import Str.

(** ** mimetypes *)

Module mimetypes.

(** [_suffix_map_default] and [_encodings_map_default]; neither is changed
    by [init()] or by [add_type]. *)
Definition suffix_map : gmap string string :=
  {[ ".svgz" := ".svg.gz"; ".tgz" := ".tar.gz"; ".taz" := ".tar.gz";
     ".tz" := ".tar.gz"; ".tbz2" := ".tar.bz2"; ".txz" := ".tar.xz" ]}.

Definition encodings_map : gmap string string :=
  {[ ".gz" := "gzip"; ".Z" := "compress"; ".bz2" := "bzip2";
     ".xz" := "xz"; ".br" := "br" ]}.

(** [add_type(type, ext)] on the strict table [types_map[True]]: a known
    extension gets the new type.  (The inverse table, which only
    [guess_extension] reads, is left out.) *)
Definition add_type (type ext : string) (types_map : gmap string string)
  : gmap string string :=
  <[ext := type]> types_map.

(** The [while] loop of [guess_type] over the suffix map. *)
Fixpoint expand_suffix (fuel : nat) (base ext : string)
  : option (string * string) :=
  match suffix_map !! lower ext with
  | None => Some (base, ext)
  | Some long =>
      match fuel with
      | O => None
      | S fuel' =>
          let '(base', ext') := splitext (base +:+ long) in
          expand_suffix fuel' base' ext'
      end
  end.

(** The branch of [guess_type] for [data:] URLs. *)
Definition guess_data_url (url : string) : option string * option string :=
  let comma := find_char "," url in
  if comma <? 0 then (None, None)
  else
    let semi := find_char ";" (slice_to comma url) in
    let type :=
      if 0 <=? semi then slice_to semi url else slice_to comma url in
    let type :=
      if (0 <=? find_char "=" type) || (find_char "/" type <? 0)
      then "text/plain" else type in
    (Some type, None).

(** [guess_type(url)] with [strict=True]: the pair (type, encoding).  The
    outer [option] is [None] only when the loop runs out of fuel. *)
Definition guess_type (types_map : gmap string string) (url : string)
  : option (option string * option string) :=
  let '(scheme, url) := _splittype url in
  if match scheme with Some t => String.eqb t "data" | None => false end
  then Some (guess_data_url url)
  else
    let '(base, ext) := splitext url in
    match expand_suffix (String.length url) base ext with
    | None => None
    | Some (base, ext) =>
        let '(encoding, ext) :=
          match encodings_map !! ext with
          | Some enc => (Some enc, snd (splitext base))
          | None => (None, ext)
          end in
        let ext := lower ext in
        Some (types_map !! ext, encoding)
    end.

End mimetypes.

(** The module-level statements of the script: the three [add_type] calls,
    applied to the table [mimetypes.init()] built on this platform (the
    built-in defaults, the system's mime.types files, the Windows
    registry). *)
Definition startup_types_map (platform_default : gmap string string)
  : gmap string string :=
  mimetypes.add_type "application/manifest+json" ".webmanifest"
    (mimetypes.add_type "application/javascript" ".mjs"
       (mimetypes.add_type "application/javascript" ".js" platform_default)).


(** ** http.server: the request handler *)

Module http_server.

(** What the handler writes to the socket: a block of header lines (the
    status line first, the empty line last), or body bytes. *)
Inductive chunk : Type :=
| Headers (lines : list string)
| Body (data : string).

(** The bytes on the wire. *)
Definition wire (c : chunk) : string :=
  match c with
  | Headers lines => String.concat "" lines
  | Body data => data
  end.

(** The attributes of a handler instance that the response code reads and
    writes.  [headers] are the fields of the request; [_headers_buffer] is
    the empty list also while the attribute does not exist yet.  Logging,
    which writes to standard error only, is left out. *)
Record handler : Type := {
  command : option string;
  path : string;
  request_version : string;
  close_connection : bool;
  headers : list (string * string);
  _headers_buffer : list string;
  wfile : list chunk
}.

Definition set_command (c : option string) (h : handler) : handler :=
  {| command := c; path := path h; request_version := request_version h;
     close_connection := close_connection h; headers := headers h;
     _headers_buffer := _headers_buffer h; wfile := wfile h |}.

Definition set_path (p : string) (h : handler) : handler :=
  {| command := command h; path := p; request_version := request_version h;
     close_connection := close_connection h; headers := headers h;
     _headers_buffer := _headers_buffer h; wfile := wfile h |}.

Definition set_request_version (v : string) (h : handler) : handler :=
  {| command := command h; path := path h; request_version := v;
     close_connection := close_connection h; headers := headers h;
     _headers_buffer := _headers_buffer h; wfile := wfile h |}.

Definition set_close_connection (b : bool) (h : handler) : handler :=
  {| command := command h; path := path h;
     request_version := request_version h; close_connection := b;
     headers := headers h;
     _headers_buffer := _headers_buffer h; wfile := wfile h |}.

Definition set_headers (fields : list (string * string)) (h : handler)
  : handler :=
  {| command := command h; path := path h;
     request_version := request_version h;
     close_connection := close_connection h; headers := fields;
     _headers_buffer := _headers_buffer h; wfile := wfile h |}.

Definition set_headers_buffer (b : list string) (h : handler) : handler :=
  {| command := command h; path := path h;
     request_version := request_version h;
     close_connection := close_connection h; headers := headers h;
     _headers_buffer := b; wfile := wfile h |}.

(** [self.wfile.write(...)] *)
Definition write (c : chunk) (h : handler) : handler :=
  {| command := command h; path := path h;
     request_version := request_version h;
     close_connection := close_connection h; headers := headers h;
     _headers_buffer := _headers_buffer h; wfile := wfile h ++ [c] |}.

(** A file opened for reading, with what [os.fstat] says about it. *)
Record file : Type := {
  st_size : Z;
  last_modified : string;      (* [date_time_string(st_mtime)] *)
  content : string
}.

(** What the handler asks of the operating system and of library code
    whose text does not matter here. *)
Record env : Type := {
  (** the strict table of [mimetypes] while requests are served *)
  types_map : gmap string string;
  (** [SimpleHTTPRequestHandler.translate_path] *)
  translate_path : string -> string;
  (** [urllib.parse.urlsplit(p).path], and the redirect target built from
      the split parts with a slash appended to the path *)
  urlsplit_path : string -> string;
  redirect_url : string -> string;
  os_path_isdir : string -> bool;
  os_path_isfile : string -> bool;
  os_path_join : string -> string -> string;
  (** [open(path, 'rb')]; [None] is [OSError] *)
  open_rb : string -> option file;
  (** [os.listdir] and the HTML page [list_directory] renders from it, as
      encoded bytes; [None] is [OSError] from [os.listdir] *)
  directory_page : string -> string -> option string;
  sys_getfilesystemencoding : string;
  (** the comparison of [If-Modified-Since] with the file's time:
      [true] when the date parses, is in UTC and is not older than the
      file *)
  not_modified_since : string -> file -> bool;
  (** [date_time_string()] and [version_string()] *)
  date_time_string : string;
  version_string : string;
  (** [error_message_format % {...}], encoded *)
  error_page : Z -> string -> string -> string;
  (** [repr(s)], and [int(s)] where [None] is [ValueError] *)
  repr : string -> string;
  py_int : string -> option Z
}.

(** [http.client.parse_headers] on the lines after the request line. *)
Inductive parsed_headers : Type :=
| HeadersOk (fields : list (string * string))
| LineTooLong (err : string)
| HTTPException (err : string).

(** One request, as [handle_one_request] reads it from the socket. *)
Record request : Type := {
  (** [len(raw_requestline) > 65536] *)
  line_too_long : bool;
  (** [not raw_requestline]: the connection was closed *)
  at_eof : bool;
  (** the request line without its line end, and [requestline.split()] *)
  requestline : string;
  words : list string;
  header_lines : parsed_headers
}.

(** [headers.get(name)]: field names compare without case. *)
Fixpoint headers_get (name : string) (fields : list (string * string))
  : option string :=
  match fields with
  | [] => None
  | (k, v) :: rest =>
      if String.eqb (lower k) (lower name) then Some v
      else headers_get name rest
  end.

Definition protocol_version : string := "HTTP/1.0".
Definition default_request_version : string := "HTTP/0.9".
Definition error_content_type : string := "text/html;charset=utf-8".

(** [BaseHTTPRequestHandler.responses]: (phrase, description) of the
    status codes the handler sends. *)
Definition responses (code : Z) : option (string * string) :=
  if code =? 100 then Some ("Continue", "Request received, please continue")
  else if code =? 200 then Some ("OK", "Request fulfilled, document follows")
  else if code =? 301 then
    Some ("Moved Permanently", "Object moved permanently -- see URI list")
  else if code =? 304 then
    Some ("Not Modified", "Document has not changed since given time")
  else if code =? 400 then
    Some ("Bad Request", "Bad request syntax or unsupported method")
  else if code =? 404 then Some ("Not Found", "Nothing matches the given URI")
  else if code =? 414 then Some ("Request-URI Too Long", "URI is too long")
  else if code =? 431 then
    Some ("Request Header Fields Too Large",
          "The server is unwilling to process the request because its header fields are too large")
  else if code =? 501 then
    Some ("Not Implemented", "Server does not support this operation")
  else if code =? 505 then
    Some ("HTTP Version Not Supported", "Cannot fulfill request")
  else None.

(** [a >= b] on Python strings and on pairs of integers. *)
Definition str_ge (a b : string) : bool := String.leb b a.
Definition pair_ge (a b : Z * Z) : bool :=
  (fst b <? fst a) || ((fst a =? fst b) && (snd b <=? snd a)).

(** [len(b)] *)
Definition len (b : string) : Z := Z.of_nat (String.length b).

(** Statements read top to bottom: [h |> f |> g] is [g (f h)]. *)
Notation "h |> f" := (f h) (at level 50, left associativity, only parsing).

(** [self.command == name] *)
Definition is_command (name : string) (h : handler) : bool :=
  match command h with
  | Some c => String.eqb c name
  | None => false
  end.

(** *** Methods that every handler class shares *)

Definition send_response_only (code : Z) (message : option string)
    (h : handler) : handler :=
  if String.eqb (request_version h) "HTTP/0.9" then h
  else
    let message :=
      match message with
      | Some m => m
      | None => match responses code with
                | Some (phrase, _) => phrase
                | None => ""
                end
      end in
    set_headers_buffer
      (_headers_buffer h
         ++ [protocol_version +:+ " " +:+ str code +:+ " " +:+ message +:+ CRLF])
      h.

Definition send_header (keyword value : string) (h : handler) : handler :=
  let h :=
    if String.eqb (request_version h) "HTTP/0.9" then h
    else set_headers_buffer
           (_headers_buffer h ++ [keyword +:+ ": " +:+ value +:+ CRLF]) h in
  if String.eqb (lower keyword) "connection" then
    if String.eqb (lower value) "close" then set_close_connection true h
    else if String.eqb (lower value) "keep-alive"
         then set_close_connection false h
         else h
  else h.

Definition flush_headers (h : handler) : handler :=
  h |> write (Headers (_headers_buffer h)) |> set_headers_buffer [].

(** [BaseHTTPRequestHandler.end_headers] *)
Definition BaseHTTPRequestHandler_end_headers (h : handler) : handler :=
  if String.eqb (request_version h) "HTTP/0.9" then h
  else h |> set_headers_buffer (_headers_buffer h ++ [CRLF]) |> flush_headers.

(** *** The two handler classes

    A class supplies the method that the script overrides. *)
Class RequestHandlerClass : Type := {
  end_headers : handler -> handler
}.

(** The library's class. *)
Definition SimpleHTTPRequestHandler : RequestHandlerClass := {|
  end_headers := BaseHTTPRequestHandler_end_headers
|}.

(** The script's class: [end_headers] sends the cache header and then
    calls [super().end_headers()]. *)
Definition CustomHTTPRequestHandler : RequestHandlerClass := {|
  end_headers := fun h =>
    h |> send_header "Cache-Control" "public, max-age=0"
      |> BaseHTTPRequestHandler_end_headers
|}.

(** [SimpleHTTPRequestHandler.extensions_map] *)
Definition extensions_map : gmap string string :=
  {[ ".gz" := "application/gzip"; ".Z" := "application/octet-stream";
     ".bz2" := "application/x-bzip2"; ".xz" := "application/x-xz" ]}.

(** [SimpleHTTPRequestHandler.guess_type] *)
Definition guess_type (types : gmap string string) (path : string) : string :=
  let '(base, ext) := splitext path in
  match extensions_map !! ext with
  | Some t => t
  | None =>
      let ext := lower ext in
      match extensions_map !! ext with
      | Some t => t
      | None =>
          match mimetypes.guess_type types path with
          | Some (Some guess, _) =>
              if String.eqb guess "" then "application/octet-stream"
              else guess
          | _ => "application/octet-stream"
          end
      end
  end.

Section Methods.

Context {cls : RequestHandlerClass}.
Variable e : env.

Definition send_response (code : Z) (message : option string)
    (h : handler) : handler :=
  h |> send_response_only code message
    |> send_header "Server" (version_string e)
    |> send_header "Date" (date_time_string e).

Definition send_error (code : Z) (message explain : option string)
    (h : handler) : handler :=
  let '(shortmsg, longmsg) :=
    match responses code with
    | Some r => r
    | None => ("???", "???")
    end in
  let message := match message with Some m => m | None => shortmsg end in
  let explain := match explain with Some x => x | None => longmsg end in
  let h := h |> send_response code (Some message)
             |> send_header "Connection" "close" in
  let body :=
    if (200 <=? code)
       && negb ((code =? 204) || (code =? 205) || (code =? 304))
    then Some (error_page e code message explain)
    else None in
  let h :=
    match body with
    | Some b => h |> send_header "Content-Type" error_content_type
                  |> send_header "Content-Length" (str (len b))
    | None => h
    end in
  let h := end_headers h in
  match body with
  | Some b =>
      if negb (is_command "HEAD" h) && negb (String.eqb b "")
      then write (Body b) h
      else h
  | None => h
  end.

Definition handle_expect_100 (h : handler) : bool * handler :=
  (true, h |> send_response_only 100 None |> end_headers).

(** The version in the request line: [None] is the [ValueError] that
    [parse_request] answers with status 400. *)
Definition base_version_number (version : string) : string :=
  slice_from (find_char "/" version + 1) version.

Definition version_number (version : string) : option (Z * Z) :=
  if startswith "HTTP/" version then
    match split_char "." (base_version_number version) with
    | [major; minor] =>
        match py_int e major, py_int e minor with
        | Some a, Some b => Some (a, b)
        | _, _ => None
        end
    | _ => None
    end
  else None.

(** [parse_request]: [inl] is [return False] (any error response has
    been sent), [inr] is [return True]. *)
Definition parse_request (req : request) (h : handler)
  : handler + handler :=
  let h := h |> set_command None
             |> set_request_version default_request_version
             |> set_close_connection true in
  let n := length (words req) in
  if Nat.eqb n 0 then inl h
  else
    let after_version : handler + handler :=
      if Nat.leb 3 n then
        let version := List.last (words req) "" in
        match version_number version with
        | None =>
            inl (send_error 400
                   (Some ("Bad request version (" +:+ repr e version +:+ ")"))
                   None h)
        | Some vn =>
            let h :=
              if pair_ge vn (1, 1) && str_ge protocol_version "HTTP/1.1"
              then set_close_connection false h else h in
            if pair_ge vn (2, 0) then
              inl (send_error 505
                     (Some ("Invalid HTTP version ("
                              +:+ base_version_number version +:+ ")"))
                     None h)
            else inr (set_request_version version h)
        end
      else inr h in
    match after_version with
    | inl h => inl h
    | inr h =>
        if negb (Nat.leb 2 n && Nat.leb n 3) then
          inl (send_error 400
                 (Some ("Bad request syntax ("
                          +:+ repr e (requestline req) +:+ ")"))
                 None h)
        else
          let command := nth 0 (words req) "" in
          let path := nth 1 (words req) "" in
          let after_command : handler + handler :=
            if Nat.eqb n 2 then
              let h := set_close_connection true h in
              if negb (String.eqb command "GET") then
                inl (send_error 400
                       (Some ("Bad HTTP/0.9 request type ("
                                +:+ repr e command +:+ ")"))
                       None h)
              else inr h
            else inr h in
          match after_command with
          | inl h => inl h
          | inr h =>
              let h := h |> set_command (Some command) |> set_path path in
              let h :=
                if startswith "//" path
                then set_path ("/" +:+ lstrip "/" path) h else h in
              match header_lines req with
              | LineTooLong err =>
                  inl (send_error 431 (Some "Line too long") (Some err) h)
              | HTTPException err =>
                  inl (send_error 431 (Some "Too many headers") (Some err) h)
              | HeadersOk fields =>
                  let h := set_headers fields h in
                  let conntype :=
                    default "" (headers_get "Connection" fields) in
                  let h :=
                    if String.eqb (lower conntype) "close"
                    then set_close_connection true h
                    else if String.eqb (lower conntype) "keep-alive"
                            && str_ge protocol_version "HTTP/1.1"
                         then set_close_connection false h
                         else h in
                  let expect := default "" (headers_get "Expect" fields) in
                  if String.eqb (lower expect) "100-continue"
                     && str_ge protocol_version "HTTP/1.1"
                     && str_ge (request_version h) "HTTP/1.1"
                  then
                    let '(ok, h) := handle_expect_100 h in
                    if ok then inr h else inl h
                  else inr h
              end
          end
    end.

(** [list_directory] and [send_head] return the file object to copy, if
    any, as its bytes. *)
Definition list_directory (p : string) (h : handler)
  : option string * handler :=
  match directory_page e p (path h) with
  | None =>
      (None,
       send_error 404 (Some "No permission to list directory") None h)
  | Some encoded =>
      let enc := sys_getfilesystemencoding e in
      (Some encoded,
       h |> send_response 200 None
         |> send_header "Content-type" ("text/html; charset=" +:+ enc)
         |> send_header "Content-Length" (str (len encoded))
         |> end_headers)
  end.

(** The test of [send_head] headed "Use browser cache if possible": an
    [If-Modified-Since] field without [If-None-Match], not older than
    the file. *)
Definition use_browser_cache (h : handler) (f : file) : bool :=
  match headers_get "If-Modified-Since" (headers h),
        headers_get "If-None-Match" (headers h) with
  | Some ims, None => not_modified_since e ims f
  | _, _ => false
  end.

Definition send_head (h : handler) : option string * handler :=
  let p := translate_path e (path h) in
  let located : (option string * handler) + string :=
    if os_path_isdir e p then
      if negb (endswith "/" (urlsplit_path e (path h))) then
        inl (None,
             h |> send_response 301 None
               |> send_header "Location" (redirect_url e (path h))
               |> send_header "Content-Length" "0"
               |> end_headers)
      else if os_path_isfile e (os_path_join e p "index.html")
      then inr (os_path_join e p "index.html")
      else if os_path_isfile e (os_path_join e p "index.htm")
      then inr (os_path_join e p "index.htm")
      else inl (list_directory p h)
    else inr p in
  match located with
  | inl r => r
  | inr p =>
      let ctype := guess_type (types_map e) p in
      if endswith "/" p then
        (None, send_error 404 (Some "File not found") None h)
      else
        match open_rb e p with
        | None => (None, send_error 404 (Some "File not found") None h)
        | Some f =>
            if use_browser_cache h f then
              (None, h |> send_response 304 None |> end_headers)
            else
              (Some (content f),
               h |> send_response 200 None
                 |> send_header "Content-type" ctype
                 |> send_header "Content-Length" (str (st_size f))
                 |> send_header "Last-Modified" (last_modified f)
                 |> end_headers)
        end
  end.

Definition do_GET (h : handler) : handler :=
  match send_head h with
  | (Some data, h) => write (Body data) h
  | (None, h) => h
  end.

Definition do_HEAD (h : handler) : handler := snd (send_head h).

Definition handle_one_request (req : request) (h : handler) : handler :=
  if line_too_long req then
    h |> set_request_version "" |> set_command (Some "")
      |> send_error 414 None None
  else if at_eof req then set_close_connection true h
  else
    match parse_request req h with
    | inl h => h
    | inr h =>
        match command h with
        | Some c =>
            if String.eqb c "GET" then do_GET h
            else if String.eqb c "HEAD" then do_HEAD h
            else send_error 501
                   (Some ("Unsupported method (" +:+ repr e c +:+ ")"))
                   None h
        | None => h
        end
    end.

End Methods.

(** A handler instance as the server creates it for a new connection. *)
Definition new_handler : handler :=
  {| command := None; path := ""; request_version := "";
     close_connection := true; headers := []; _headers_buffer := [];
     wfile := [] |}.

(** The cache header, as a line of the header block. *)
Definition cache_control_line : string :=
  "Cache-Control: public, max-age=0" +:+ CRLF.

End http_server.

Import http_server.

(** *** A sample site and sample requests *)

(** [int(s)] on strings of decimal digits. *)
Fixpoint digits_value (acc : Z) (s : string) : option Z :=
  match s with
  | "" => Some acc
  | String c s' =>
      let n := nat_of_ascii c in
      if (Nat.leb 48 n && Nat.leb n 57)%bool
      then digits_value (10 * acc + Z.of_nat (n - 48)) s'
      else None
  end.

Definition decimal (s : string) : option Z :=
  match s with
  | "" => None
  | _ => digits_value 0 s
  end.

(** The bundled application under /opt/haven: [index.html], [app.js], a
    manifest, and a directory [assets] without an index. *)
Definition haven_site (platform_default : gmap string string) : env := {|
  types_map := startup_types_map platform_default;
  translate_path := fun p => "/opt/haven" +:+ p;
  urlsplit_path := fun p => p;
  redirect_url := fun p => p +:+ "/";
  os_path_isdir := fun p =>
    String.eqb p "/opt/haven/" || String.eqb p "/opt/haven/assets"
    || String.eqb p "/opt/haven/assets/";
  os_path_isfile := fun p =>
    String.eqb p "/opt/haven/index.html" || String.eqb p "/opt/haven/app.js"
    || String.eqb p "/opt/haven/site.webmanifest";
  os_path_join := fun a b =>
    if endswith "/" a then a +:+ b else a +:+ "/" +:+ b;
  open_rb := fun p =>
    if String.eqb p "/opt/haven/index.html" then
      Some {| st_size := 15; last_modified := "Mon, 02 Nov 2026 10:00:00 GMT";
              content := "<!doctype html>" |}
    else if String.eqb p "/opt/haven/app.js" then
      Some {| st_size := 14; last_modified := "Mon, 02 Nov 2026 10:00:00 GMT";
              content := "console.log(1)" |}
    else if String.eqb p "/opt/haven/site.webmanifest" then
      Some {| st_size := 2; last_modified := "Mon, 02 Nov 2026 10:00:00 GMT";
              content := "{}" |}
    else None;
  directory_page := fun p _ =>
    if String.eqb p "/opt/haven/assets/" then Some "<ul></ul>" else None;
  sys_getfilesystemencoding := "utf-8";
  not_modified_since := fun ims f => String.eqb ims (last_modified f);
  date_time_string := "Tue, 03 Nov 2026 09:30:00 GMT";
  version_string := "SimpleHTTP/0.6 Python/3.11.2";
  error_page := fun code message explain =>
    "<h1>" +:+ str code +:+ " " +:+ message +:+ "</h1><p>" +:+ explain +:+ "</p>";
  repr := fun s => "'" +:+ s +:+ "'";
  py_int := decimal
|}.

(** A platform whose own table serves JavaScript as plain text. *)
Definition odd_platform : gmap string string :=
  {[ ".js" := "text/plain"; ".html" := "text/html" ]}.

Definition request_of (line : string) (ws : list string) : request :=
  {| line_too_long := false; at_eof := false; requestline := line;
     words := ws; header_lines := HeadersOk [("Host", "127.0.0.1:8765")] |}.

Definition get_app_js : request :=
  request_of "GET /app.js HTTP/1.1" ["GET"; "/app.js"; "HTTP/1.1"].

Definition get_missing : request :=
  request_of "GET /missing.css HTTP/1.1" ["GET"; "/missing.css"; "HTTP/1.1"].

Definition get_missing_js : request :=
  request_of "GET /vendor.js HTTP/1.1" ["GET"; "/vendor.js"; "HTTP/1.1"].

(** A request line that is no HTTP at all, one with a version the server
    does not know, and an HTTP/0.9 simple request. *)
Definition garbage_line : request := request_of "hello" ["hello"].

Definition get_http2 : request :=
  request_of "GET / HTTP/2.0" ["GET"; "/"; "HTTP/2.0"].

Definition simple_get : request :=
  request_of "GET /app.js" ["GET"; "/app.js"].


(** *** The script's handler next to the library's *)

(** A header block with the cache header put before its last line (the
    empty line that ends the block); body bytes are left alone. *)
Definition add_cache_control (c : chunk) : chunk :=
  match c with
  | Headers lines =>
      Headers (removelast lines ++ [cache_control_line; List.last lines CRLF])
  | Body _ => c
  end.

(** A handler of the library's class, seen as the script's handler would be
    in the same place: the same attributes, and the cache header in every
    header block written so far. *)
Definition script_view (h : handler) : handler :=
  {| command := command h; path := path h;
     request_version := request_version h;
     close_connection := close_connection h; headers := headers h;
     _headers_buffer := _headers_buffer h;
     wfile := map add_cache_control (wfile h) |}.

(** Whether a response has a header block. *)
Definition has_headers (w : list chunk) : bool :=
  existsb (fun c => match c with Headers _ => true | Body _ => false end) w.

(** Both results of [parse_request], seen as the script's handler. *)
Definition view_result (r : handler + handler) : handler + handler :=
  match r with
  | inl h => inl (script_view h)
  | inr h => inr (script_view h)
  end.

Definition view_sent (r : option string * handler) : option string * handler :=
  (fst r, script_view (snd r)).

(** [h'] is [h] after a method that answers the request: the request version
    is kept, chunks are only appended, and unless the version is HTTP/0.9 the
    first chunk appended is a header block. *)
Definition answers (h h' : handler) : Prop :=
  request_version h' = request_version h
  /\ exists out,
       wfile h' = wfile h ++ out
       /\ (String.eqb (request_version h) "HTTP/0.9" = false ->
           exists lines rest, out = Headers lines :: rest).

(** A handler whose request got no answer, or one that begins with a header
    block, unless the request version is HTTP/0.9. *)
Definition well_answered (h : handler) : Prop :=
  String.eqb (request_version h) "HTTP/0.9" = false ->
  wfile h = [] \/ exists lines rest, wfile h = Headers lines :: rest.

(** ** Paths and their extensions *)

(** The extension [guess_type] looks up: that of [posixpath.splitext], in
    lower case. *)
Definition extension (p : string) : string := lower (snd (splitext p)).

(** A path of the file system, as [translate_path] returns it: either
    nothing in front of it reads as a URL scheme (an absolute POSIX path),
    or what does (a drive letter) is not [data] and leaves the extension
    untouched. *)
Definition local_path (p : string) : Prop :=
  match _splittype p with
  | (None, _) => True
  | (Some scheme, rest) =>
      scheme <> "data" /\ snd (splitext rest) = snd (splitext p)
  end.

(** The three types the script registers, by extension. *)
Definition overridden (ext ctype : string) : Prop :=
  (ext = ".js" /\ ctype = "application/javascript")
  \/ (ext = ".mjs" /\ ctype = "application/javascript")
  \/ (ext = ".webmanifest" /\ ctype = "application/manifest+json").

(** The handler after [parse_request] accepted [GET /app.js HTTP/1.1]. *)
Definition serving_app_js : handler :=
  {| command := Some "GET"; path := "/app.js"; request_version := "HTTP/1.1";
     close_connection := true; headers := [("Host", "127.0.0.1:8765")];
     _headers_buffer := []; wfile := [] |}.

Definition app_js : file :=
  {| st_size := 14; last_modified := "Mon, 02 Nov 2026 10:00:00 GMT";
     content := "console.log(1)" |}.

(** A site with one more file. *)
Definition with_file (name : string) (f : file) (e : env) : env :=
  {| types_map := types_map e;
     translate_path := translate_path e;
     urlsplit_path := urlsplit_path e;
     redirect_url := redirect_url e;
     os_path_isdir := os_path_isdir e;
     os_path_isfile := fun p => String.eqb p name || os_path_isfile e p;
     os_path_join := os_path_join e;
     open_rb := fun p => if String.eqb p name then Some f else open_rb e p;
     directory_page := directory_page e;
     sys_getfilesystemencoding := sys_getfilesystemencoding e;
     not_modified_since := not_modified_since e;
     date_time_string := date_time_string e;
     version_string := version_string e;
     error_page := error_page e;
     repr := repr e;
     py_int := py_int e |}.

(** A manifest kept in a file whose whole name is [.webmanifest]. *)
Definition dot_manifest : file :=
  {| st_size := 2; last_modified := "Mon, 02 Nov 2026 10:00:00 GMT";
     content := "{}" |}.

Definition get_dot_manifest : request :=
  request_of "GET /.webmanifest HTTP/1.1"
             ["GET"; "/.webmanifest"; "HTTP/1.1"].

(** The lines of the first header block of a response. *)
Definition header_lines_of (w : list chunk) : list string :=
  match w with
  | Headers lines :: _ => lines
  | _ => []
  end.

(** [c not in s] *)
Fixpoint no_char (c : ascii) (s : string) : bool :=
  match s with
  | "" => true
  | String a s' => negb (Ascii.eqb a c) && no_char c s'
  end.

(** The last component of [root] has a character that is not a dot: [root]
    reads [a ++ x ++ b] with [x] neither dot nor slash and no slash in
    [b]. *)
Definition has_name (root : string) : Prop :=
  exists a x b,
    root = a +:+ String x b
    /\ x <> "."%char /\ x <> "/"%char /\ no_char "/" b = true.

(** ** More observations on a run *)

(** How often the listening socket was closed. *)
Fixpoint count_closes (t : list event) : nat :=
  match t with
  | [] => O
  | EvServerClose :: t' => S (count_closes t')
  | _ :: t' => count_closes t'
  end.

(** What happened after the socket was closed, if it was. *)
Fixpoint after_close (t : list event) : option (list event) :=
  match t with
  | [] => None
  | EvServerClose :: t' => Some t'
  | _ :: t' => after_close t'
  end.

Definition is_print (ev : event) : bool :=
  match ev with
  | EvPrint _ => true
  | _ => false
  end.

(** The URLs handed to the browser, in order. *)
Fixpoint browser_urls (t : list event) : list string :=
  match t with
  | [] => []
  | EvBrowserOpen url :: t' => url :: browser_urls t'
  | _ :: t' => browser_urls t'
  end.

(** The URL of a listener, as the script's f-string builds it. *)
Definition url_of (a : string * Z) : string :=
  "http://" +:+ fst a +:+ ":" +:+ str (snd a).

Definition returned {A} (r : result A) : bool :=
  match r with
  | Ret _ => true
  | Raise _ => false
  end.

Definition ended (o : outcome) : bool :=
  match o with
  | Serving => false
  | _ => true
  end.

(** An [OSError] reached the outer [try]: raised by the bind, or by the
    serve loop of a server that got running. *)
Definition os_error_reached (w : world) : Prop :=
  (exists errno msg, TCPServer_init w HOST PORT = Raise (OSError errno msg))
  \/ (TCPServer_init w HOST PORT = Ret tt
      /\ webbrowser_open w server_url <> Raise KeyboardInterrupt
      /\ exists errno msg,
           serve_forever_raises w = Some (OSError errno msg)).

(** The serve loop fails with an [OSError] on a socket that was bound. *)
Definition serve_loop_breaks : world :=
  with_serve (Some (OSError (Some 5) "[Errno 5] Input/output error"))
             quiet_world.

(** Ctrl-C arrives while the browser is being launched. *)
Definition ctrl_c_at_browser : world :=
  with_browser (Raise KeyboardInterrupt) quiet_world.

(** ** More observations on a response *)

(** No line is the cache header. *)
Definition clean (lines : list string) : Prop :=
  Forall (fun l => l <> cache_control_line) lines.

(** A header block as the library writes it: at least two lines, the empty
    line last, the cache header nowhere. *)
Definition library_block (lines : list string) : Prop :=
  clean lines /\ List.last lines CRLF = CRLF /\ (2 <= length lines)%nat.

(** The library's handler has kept the cache header out of its buffer and
    out of every block it wrote. *)
Definition clean_state (h : handler) : Prop :=
  clean (_headers_buffer h)
  /\ forall lines, In (Headers lines) (wfile h) -> library_block lines.

(** The header methods have something to flush, unless the request version
    is HTTP/0.9. *)
Definition started (h : handler) : Prop :=
  String.eqb (request_version h) "HTTP/0.9" = true
  \/ _headers_buffer h <> [].

(** A header name whose line cannot be taken for the cache header. *)
Definition other_header (k : string) : Prop :=
  forall v, k +:+ ": " +:+ v +:+ CRLF <> cache_control_line.

(** The body chunks of a response, and the first line of each of its header
    blocks. *)
Fixpoint bodies (w : list chunk) : list string :=
  match w with
  | [] => []
  | Body b :: w' => b :: bodies w'
  | Headers _ :: w' => bodies w'
  end.

Fixpoint status_lines (w : list chunk) : list string :=
  match w with
  | [] => []
  | Headers lines :: w' => hd "" lines :: status_lines w'
  | Body _ :: w' => status_lines w'
  end.

(** What one [end_headers] appends for a request version: nothing for
    HTTP/0.9, one header block otherwise. *)
Definition headers_out (v : string) (out : list chunk) : Prop :=
  if String.eqb v "HTTP/0.9" then out = []
  else exists lines, out = [Headers lines].

(** One answer: the headers, then at most one chunk of body. *)
Definition answer_out (v : string) (out : list chunk) : Prop :=
  headers_out v out
  \/ exists out0 b, headers_out v out0 /\ out = out0 ++ [Body b].

(** [h'] is [h] after the headers of one answer went out. *)
Definition sends_headers (h h' : handler) : Prop :=
  request_version h' = request_version h
  /\ command h' = command h
  /\ exists out, wfile h' = wfile h ++ out
                 /\ headers_out (request_version h) out.

(** [h'] is [h] after one answer went out. *)
Definition answers_once (h h' : handler) : Prop :=
  request_version h' = request_version h
  /\ command h' = command h
  /\ exists out, wfile h' = wfile h ++ out
                 /\ answer_out (request_version h) out.

(** What [send_head] and [list_directory] leave behind: with a file to copy
    only the headers went out; without one the answer is complete, and it
    is headers only when the command is HEAD. *)
Definition head_sent (h : handler) (r : option string * handler) : Prop :=
  match r with
  | (Some _, h') => sends_headers h h'
  | (None, h') =>
      answers_once h h'
      /\ (is_command "HEAD" h = true -> sends_headers h h')
  end.

(** A handler that wrote nothing or one answer; and one that, if its command
    is HEAD, wrote no body. *)
Definition one_answer (h : handler) : Prop :=
  wfile h = [] \/ answer_out (request_version h) (wfile h).

Definition head_answer (h : handler) : Prop :=
  is_command "HEAD" h = true ->
  wfile h = [] \/ headers_out (request_version h) (wfile h).


(** ** More on the MIME table *)

(** A platform table that already has the three types, as the built-in
    defaults of Python 3.11 do. *)
Definition python311_defaults : gmap string string :=
  {[ ".js" := "application/javascript"; ".mjs" := "application/javascript";
     ".json" := "application/json";
     ".webmanifest" := "application/manifest+json";
     ".html" := "text/html"; ".css" := "text/css" ]}.
(** * Properties of the lifecycle *)

Lemma run_run_cases (w : world) : run w = run_cases w.
Proof.
  unfold run, run_cases, main, script_dir.
  cbv [mbind M_bind mret M_ret try_except with_TCPServer chdir TCPServer
       browser_open serve_forever print sys_exit lift emit cwd trace
       serve_phase top_level].
  change ("http://" +:+ HOST +:+ ":" +:+ str PORT) with server_url.
  destruct (os_chdir w (parent (__file__ w))) as [[]|e0]; [|reflexivity].
  destruct (TCPServer_init w HOST PORT) as [[]|e1].
  - destruct (webbrowser_open w server_url) as [b|e2].
    + destruct (serve_forever_raises w) as [[errno msg| |c msg]|];
        try destruct (errno_in_use errno); reflexivity.
    + destruct e2 as [errno2 msg2| |c2 msg2]; cbn [isinstance_Exception];
        try reflexivity;
        destruct (serve_forever_raises w) as [[errno msg| |c msg]|];
        try destruct (errno_in_use errno); reflexivity.
  - destruct e1 as [errno msg| |c msg];
      try destruct (errno_in_use errno); reflexivity.
Qed.

(** Case analysis on every answer of the world that [run] consults. *)
Ltac world_cases :=
  rewrite ?run_run_cases in *;
  unfold run_cases, serve_phase, top_level in *;
  repeat match goal with
         | H : ?x = _ |- context [match ?x with _ => _ end] => rewrite H
         | |- context [match ?x with _ => _ end] => destruct x eqn:?
         end.

Lemma errno_in_use_spec (errno : option Z) :
  errno_in_use errno = true <-> errno = Some 48 \/ errno = Some 98.
Proof.
  unfold errno_in_use, EADDRINUSE_MACOS, EADDRINUSE_LINUX.
  destruct errno as [n|]; [|split; [discriminate|intros [|]; discriminate]].
  rewrite orb_true_iff, !Z.eqb_eq.
  split; intros [H|H]; first [left; congruence | right; congruence].
Qed.

(** On Linux and macOS an occupied port is recognised. *)
Lemma address_in_use_detected (w : world) (msg : string) :
  platform w <> Windows ->
  os_chdir w (script_dir w) = Ret tt ->
  TCPServer_init w HOST PORT
    = Raise (OSError (Some (errno_EADDRINUSE (platform w))) msg) ->
  run w = (Exited 1,
           startup_trace w ++ [EvBind HOST PORT (script_dir w)]
             ++ port_in_use_message).
Proof.
  intros Hp Hc Hb. rewrite run_run_cases. unfold run_cases.
  rewrite Hc, Hb. cbn [top_level].
  destruct (platform w); try congruence; reflexivity.
Qed.

(** C1 (the code at the failing input).  On Windows, where the number of
    "address already in use" is 10048, a bind that fails because the port is
    busy takes the generic branch: the process prints [Server error: ...]
    with the system's message and exits with status 1; no line naming
    port 8765 is printed.  The serve loop is not entered. *)
Theorem C1_address_in_use_windows (w : world) (msg : string) :
  platform w = Windows ->
  os_chdir w (script_dir w) = Ret tt ->
  TCPServer_init w HOST PORT
    = Raise (OSError (Some (errno_EADDRINUSE (platform w))) msg) ->
  run w = (Exited 1,
           startup_trace w
             ++ [EvBind HOST PORT (script_dir w);
                 EvPrint ("Server error: " +:+ msg)])
  /\ ~ In (EvPrint (NL +:+ "❌ Port 8765 is already in use.")) (snd (run w))
  /\ served (snd (run w)) = false.
Proof.
  intros Hp Hc Hb.
  assert (Hrun : run w = (Exited 1,
             startup_trace w
               ++ [EvBind HOST PORT (script_dir w);
                   EvPrint ("Server error: " +:+ msg)])).
  { rewrite run_run_cases. unfold run_cases. rewrite Hc, Hb, Hp. reflexivity. }
  rewrite Hrun. split; [reflexivity|]. split.
  - cbn [snd startup_trace app In]. intros H.
    repeat destruct H as [H|H]; try discriminate H; try contradiction.
  - reflexivity.
Qed.

Lemma C1_address_in_use_windows_witness :
  run windows_port_busy
  = (Exited 1,
     startup_trace windows_port_busy
       ++ [EvBind HOST PORT (script_dir windows_port_busy);
           EvPrint "Server error: [WinError 10048] Only one usage of each socket address (protocol/network address/port) is normally permitted"]).
Proof.
  exact (proj1 (C1_address_in_use_windows windows_port_busy _
                  eq_refl eq_refl eq_refl)).
Defined.

Lemma top_level_outcome (e : exn) (t t' : list event) :
  fst (top_level e t) = fst (top_level e t').
Proof.
  destruct e as [errno msg| |c msg]; cbn [top_level]; try reflexivity.
  destruct (errno_in_use errno); reflexivity.
Qed.

Lemma serve_phase_outcome (w : world) (t t' : list event) :
  fst (serve_phase w t) = fst (serve_phase w t').
Proof.
  unfold serve_phase. destruct (serve_forever_raises w); [|reflexivity].
  apply top_level_outcome.
Qed.

Lemma serve_phase_trace (w : world) (t : list event) :
  exists post,
    snd (serve_phase w t) = t ++ [EvServeForever (script_dir w)] ++ post.
Proof.
  unfold serve_phase, top_level.
  destruct (serve_forever_raises w) as [[errno msg| |c msg]|];
    try destruct (errno_in_use errno); cbn [snd];
    rewrite <- ?app_assoc; cbn [app]; eexists; reflexivity.
Qed.

(** C4.  When [webbrowser.open] raises an exception (any subclass of
    [Exception]), the two warning lines, the second one with the server's
    URL, are printed right after the call and the serve loop is entered
    next; the process then ends exactly as it would have ended had the
    browser opened, and it keeps serving when nothing stops the loop. *)
Theorem C4_browser_failure_is_not_fatal (w : world) (e : exn) :
  isinstance_Exception e = true ->
  os_chdir w (script_dir w) = Ret tt ->
  TCPServer_init w HOST PORT = Ret tt ->
  webbrowser_open w server_url = Raise e ->
  (exists post,
      snd (run w)
      = startup_trace w ++ announce_trace w ++ browser_warning
          ++ [EvServeForever (script_dir w)] ++ post)
  /\ fst (run w) = fst (run (with_browser (Ret true) w))
  /\ (serve_forever_raises w = None -> fst (run w) = Serving).
Proof.
  intros He Hc Hb Ho.
  assert (Hw : run w
               = serve_phase w ((startup_trace w ++ announce_trace w)
                                  ++ browser_warning)).
  { rewrite run_run_cases. unfold run_cases. rewrite Hc, Hb, Ho, He.
    reflexivity. }
  assert (Hw' : run (with_browser (Ret true) w)
                = serve_phase w (startup_trace w ++ announce_trace w)).
  { rewrite run_run_cases. unfold run_cases.
    change (os_chdir (with_browser (Ret true) w)
              (script_dir (with_browser (Ret true) w)))
      with (os_chdir w (script_dir w)).
    change (TCPServer_init (with_browser (Ret true) w))
      with (TCPServer_init w).
    rewrite Hc, Hb. reflexivity. }
  rewrite Hw, Hw'. split; [|split].
  - destruct (serve_phase_trace w
               ((startup_trace w ++ announce_trace w) ++ browser_warning))
      as [post Hpost].
    exists post. rewrite Hpost, <- !app_assoc. reflexivity.
  - apply serve_phase_outcome.
  - intros Hs. unfold serve_phase. rewrite Hs. reflexivity.
Qed.

Lemma C4_browser_failure_is_not_fatal_witness :
  (exists post,
      snd (run browser_raises)
      = startup_trace browser_raises ++ announce_trace browser_raises
          ++ browser_warning
          ++ [EvServeForever (script_dir browser_raises)] ++ post)
  /\ fst (run browser_raises)
     = fst (run (with_browser (Ret true) browser_raises))
  /\ (serve_forever_raises browser_raises = None ->
      fst (run browser_raises) = Serving).
Proof.
  apply (C4_browser_failure_is_not_fatal browser_raises
           (OtherException "webbrowser.Error"
                           "could not locate runnable browser"));
    reflexivity.
Defined.

(** An exit with status 0 comes from the [KeyboardInterrupt] clause. *)
Lemma top_level_exit_0 (e : exn) (t : list event) :
  fst (top_level e t) = Exited 0 ->
  e = KeyboardInterrupt /\ snd (top_level e t) = t ++ shutdown_message.
Proof.
  destruct e as [errno msg| |c msg]; cbn [top_level].
  - destruct (errno_in_use errno); discriminate.
  - intros _. split; reflexivity.
  - discriminate.
Qed.

Lemma exit_0_only_by_interrupt (w : world) :
  fst (run w) = Exited 0 ->
  interrupted w /\ exists pre, snd (run w) = pre ++ shutdown_message.
Proof.
  rewrite run_run_cases. unfold run_cases, interrupted.
  destruct (os_chdir w (script_dir w)) as [[]|e0]; [|discriminate].
  destruct (TCPServer_init w HOST PORT) as [[]|e1].
  - cbn zeta.
    assert (Hserve : forall t,
               fst (serve_phase w t) = Exited 0 ->
               serve_forever_raises w = Some KeyboardInterrupt
               /\ exists pre, snd (serve_phase w t) = pre ++ shutdown_message).
    { intros t. unfold serve_phase.
      destruct (serve_forever_raises w) as [e3|]; [|discriminate].
      intros H. apply top_level_exit_0 in H as [-> ->]. eauto. }
    destruct (webbrowser_open w server_url) as [b|e2].
    + intros H. apply Hserve in H as [H1 H2]. auto.
    + destruct (isinstance_Exception e2).
      * intros H. apply Hserve in H as [H1 H2]. auto.
      * intros H. apply top_level_exit_0 in H as [-> ->]. eauto.
  - intros H. apply top_level_exit_0 in H as [-> ->]. eauto.
Qed.

(** C5.  When the running server is interrupted ([KeyboardInterrupt] raised
    out of [serve_forever]), the serve loop is left, the listening socket is
    closed ([server_close] on leaving the [with] block), the two lines of
    the shutdown confirmation are printed, and the process exits with
    status 0.  Conversely, in any run that ends with status 0 an interrupt
    was delivered and the run ends with the shutdown confirmation. *)
Theorem C5_interrupt_shuts_down_cleanly (w : world) :
  os_chdir w (script_dir w) = Ret tt ->
  TCPServer_init w HOST PORT = Ret tt ->
  (forall e, webbrowser_open w server_url = Raise e ->
             isinstance_Exception e = true) ->
  serve_forever_raises w = Some KeyboardInterrupt ->
  (exists pre,
      run w = (Exited 0,
               pre ++ [EvServeForever (script_dir w); EvServerClose]
                   ++ shutdown_message))
  /\ (forall w', fst (run w') = Exited 0 ->
                 interrupted w'
                 /\ exists pre, snd (run w') = pre ++ shutdown_message).
Proof.
  intros Hc Hb Ho Hs. split; [|exact exit_0_only_by_interrupt].
  rewrite run_run_cases. unfold run_cases. rewrite Hc, Hb. cbn zeta.
  assert (Hserve : forall t,
             serve_phase w t
             = (Exited 0, t ++ [EvServeForever (script_dir w); EvServerClose]
                            ++ shutdown_message)).
  { intros t. unfold serve_phase. rewrite Hs. cbn [top_level].
    rewrite <- app_assoc. reflexivity. }
  destruct (webbrowser_open w server_url) as [b|e2].
  - rewrite Hserve. eauto.
  - rewrite (Ho e2 eq_refl), Hserve. eauto.
Qed.

Lemma C5_interrupt_shuts_down_cleanly_witness :
  (exists pre,
      run ctrl_c = (Exited 0,
                    pre ++ [EvServeForever (script_dir ctrl_c); EvServerClose]
                        ++ shutdown_message))
  /\ (forall w', fst (run w') = Exited 0 ->
                 interrupted w'
                 /\ exists pre, snd (run w') = pre ++ shutdown_message).
Proof.
  apply (C5_interrupt_shuts_down_cleanly ctrl_c);
    try reflexivity.
  intros e H. discriminate H.
Defined.

(** C6.  When binding fails with an [OSError] whose [errno] is neither of
    the two numbers the script takes for "address already in use", the
    process prints [Server error: ] followed by the error's own message and
    exits with status 1; the bind was attempted once and the serve loop is
    never entered. *)
Theorem C6_other_bind_error (w : world) (errno : option Z) (msg : string) :
  os_chdir w (script_dir w) = Ret tt ->
  TCPServer_init w HOST PORT = Raise (OSError errno msg) ->
  errno <> Some EADDRINUSE_MACOS ->
  errno <> Some EADDRINUSE_LINUX ->
  run w = (Exited 1,
           startup_trace w
             ++ [EvBind HOST PORT (script_dir w);
                 EvPrint ("Server error: " +:+ msg)])
  /\ bound_addresses (snd (run w)) = [(HOST, PORT)]
  /\ served (snd (run w)) = false.
Proof.
  intros Hc Hb Hm Hl.
  assert (Hno : errno_in_use errno = false).
  { destruct (errno_in_use errno) eqn:E; [|reflexivity].
    apply errno_in_use_spec in E as [E|E]; contradiction. }
  assert (Hrun : run w = (Exited 1,
             startup_trace w
               ++ [EvBind HOST PORT (script_dir w);
                   EvPrint ("Server error: " +:+ msg)])).
  { rewrite run_run_cases. unfold run_cases. rewrite Hc, Hb.
    cbn [top_level]. rewrite Hno, <- app_assoc. reflexivity. }
  rewrite Hrun. repeat split.
Qed.

Lemma C6_other_bind_error_witness :
  run bind_denied
  = (Exited 1,
     startup_trace bind_denied
       ++ [EvBind HOST PORT (script_dir bind_denied);
           EvPrint "Server error: [Errno 13] Permission denied"])
  /\ bound_addresses (snd (run bind_denied)) = [(HOST, PORT)]
  /\ served (snd (run bind_denied)) = false.
Proof.
  apply (C6_other_bind_error bind_denied (Some 13)
           "[Errno 13] Permission denied");
    first [reflexivity | discriminate].
Defined.



(** An exception of a class without a clause leaves the serve loop and the
    program uncaught as well. *)
Lemma uncaught_from_serve_loop :
  fst (run (with_serve (Some (OtherException "MemoryError" "")) quiet_world))
  = Uncaught (OtherException "MemoryError" "").
Proof. reflexivity. Qed.



(** [Path.parent] pinned down: of a path that names a file, it keeps the
    anchor and every component but the last one, the file's name. *)
Lemma parent_drops_file_name (a : string) (dir : list string) (name : string) :
  parent {| anchor := a; tail := dir ++ [name] |} = {| anchor := a; tail := dir |}.
Proof. unfold parent; cbn. rewrite removelast_last. reflexivity. Qed.

(** The first event of every run is the [os.chdir] of line 47, and the
    directory it names is the working directory at the bind and in the
    serve loop. *)
Lemma chdir_first_then_roots (w : world) :
  hd_error (snd (run w)) = Some (EvChdir (script_dir w))
  /\ Forall (fun d => d = script_dir w) (roots_used (snd (run w))).
Proof.
  rewrite run_run_cases.
  unfold run_cases, serve_phase, top_level.
  repeat match goal with
         | |- context [match ?x with _ => _ end] => destruct x
         end;
    (split; [reflexivity|]); cbn; repeat constructor.
Qed.

(** C8.  When the script is the file [name] in the directory with anchor
    [a] and components [dir] (so [__file__] is [a], [dir], then [name]),
    the first thing the process does is [os.chdir] to that directory, the
    path [a], [dir] without the file's name; whenever the socket is bound
    and whenever the serve loop is entered, the working directory is that
    directory, whatever the working directory of the caller was. *)
Theorem C8_serves_from_script_directory
  (w : world) (a : string) (dir : list string) (name : string) :
  __file__ w = {| anchor := a; tail := dir ++ [name] |} ->
  hd_error (snd (run w)) = Some (EvChdir {| anchor := a; tail := dir |})
  /\ Forall (fun d => d = {| anchor := a; tail := dir |})
            (roots_used (snd (run w))).
Proof.
  intros Hfile.
  rewrite <- (parent_drops_file_name a dir name), <- Hfile.
  exact (chdir_first_then_roots w).
Qed.

(** C8 at work: the script [/opt/haven/embedded-server.py], started from
    [/home/user], changes to [/opt/haven], binds and serves there. *)
Lemma C8_serves_from_script_directory_witness :
  snd (run quiet_world)
  = [ EvChdir {| anchor := "/"; tail := ["opt"; "haven"] |} ]
    ++ tl (snd (run quiet_world))
  /\ roots_used (snd (run quiet_world))
     = [ {| anchor := "/"; tail := ["opt"; "haven"] |};
         {| anchor := "/"; tail := ["opt"; "haven"] |} ]
  /\ hd_error (snd (run quiet_world))
     = Some (EvChdir {| anchor := "/"; tail := ["opt"; "haven"] |})
  /\ Forall (fun d => d = {| anchor := "/"; tail := ["opt"; "haven"] |})
            (roots_used (snd (run quiet_world))).
Proof.
  split; [reflexivity|]. split; [reflexivity|].
  apply (C8_serves_from_script_directory
           quiet_world "/" ["opt"; "haven"] "embedded-server.py").
  reflexivity.
Defined.

(** C9.  The process binds at most once, always at 127.0.0.1 port 8765:
    exactly once when the change of directory succeeded, never otherwise.
    The command line and the environment have no influence on the run. *)
Theorem C9_fixed_listener_address (w : world)
    (a : list string) (v : list (string * string)) :
  bound_addresses (snd (run w))
  = match os_chdir w (parent (__file__ w)) with
    | Ret _ => [("127.0.0.1", 8765)]
    | Raise _ => []
    end
  /\ run (with_inputs a v w) = run w.
Proof.
  split; [|reflexivity].
  rewrite run_run_cases.
  unfold run_cases, serve_phase, top_level, script_dir.
  repeat match goal with
         | |- context [match ?x with _ => _ end] => destruct x
         end; reflexivity.
Qed.

(** [Hev] puts an event among the lines of one message, [H] among the
    events of another part of the trace; the two have no event in common. *)
Ltac different_lines Hev H :=
  cbn in Hev, H;
  repeat match goal with
         | H : _ \/ _ |- _ => destruct H
         end;
  subst; try contradiction; discriminate.

(** The lines printed after the serve loop was left are not the browser
    warning. *)
Lemma top_level_adds_no_warning (e : exn) (t : list event) (ev : event) :
  In ev browser_warning ->
  In ev (snd (top_level e t)) -> In ev t.
Proof.
  intros Hev. destruct e as [errno msg| |c msg]; cbn [top_level].
  - destruct (errno_in_use errno); cbn [snd]; rewrite in_app_iff;
      (intros [H|H]; [exact H|]); exfalso;
      different_lines Hev H.
  - cbn [snd]. rewrite in_app_iff. intros [H|H]; [exact H|]. exfalso.
    different_lines Hev H.
  - cbn [snd]. auto.
Qed.

Lemma serve_phase_adds_no_warning (w : world) (t : list event) (ev : event) :
  In ev browser_warning ->
  In ev (snd (serve_phase w t)) -> In ev t.
Proof.
  intros Hev. unfold serve_phase.
  destruct (serve_forever_raises w) as [e|].
  - intros H. apply top_level_adds_no_warning in H; [|exact Hev].
    apply in_app_iff in H as [H|H]; [exact H|]. exfalso.
    different_lines Hev H.
  - cbn [snd]. rewrite in_app_iff. intros [H|H]; [exact H|]. exfalso.
    different_lines Hev H.
Qed.

Lemma no_warning_before_browser (w : world) (ev : event) :
  In ev browser_warning ->
  ~ In ev (startup_trace w ++ announce_trace w).
Proof.
  intros Hev H. different_lines Hev H.
Qed.

(** A line of the browser warning appears in a run only if the browser call
    raised an exception. *)
Lemma warning_only_after_exception (w : world) (ev : event) :
  In ev browser_warning ->
  In ev (snd (run w)) ->
  exists e, webbrowser_open w server_url = Raise e
            /\ isinstance_Exception e = true.
Proof.
  intros Hev. rewrite run_run_cases. unfold run_cases.
  destruct (os_chdir w (script_dir w)) as [[]|e0].
  - destruct (TCPServer_init w HOST PORT) as [[]|e1].
    + cbn zeta. destruct (webbrowser_open w server_url) as [b|e2].
      * intros H. apply serve_phase_adds_no_warning in H; [|exact Hev].
        exfalso. exact (no_warning_before_browser w ev Hev H).
      * destruct (isinstance_Exception e2) eqn:E; [eauto|].
        intros H. apply top_level_adds_no_warning in H; [|exact Hev].
        exfalso. apply in_app_iff in H as [H|H].
        -- exact (no_warning_before_browser w ev Hev H).
        -- different_lines Hev H.
    + intros H. apply top_level_adds_no_warning in H; [|exact Hev].
      exfalso. different_lines Hev H.
  - intros H. exfalso. different_lines Hev H.
Qed.

(** C10.  When [webbrowser.open] returns without raising, whatever it
    returns ([False] included), neither line of the warning is printed
    anywhere in the run and the serve loop is entered right after the call.
    In every run, a line of the warning is printed only if the call raised
    an exception. *)
Theorem C10_unsuccessful_return_is_silent (w : world) (b : bool) :
  os_chdir w (script_dir w) = Ret tt ->
  TCPServer_init w HOST PORT = Ret tt ->
  webbrowser_open w server_url = Ret b ->
  (forall ev, In ev browser_warning -> ~ In ev (snd (run w)))
  /\ (exists post,
         snd (run w)
         = startup_trace w ++ announce_trace w
             ++ [EvServeForever (script_dir w)] ++ post)
  /\ (forall w' ev, In ev browser_warning -> In ev (snd (run w')) ->
        exists e, webbrowser_open w' server_url = Raise e
                  /\ isinstance_Exception e = true).
Proof.
  intros Hc Hb Ho. split; [|split].
  - intros ev Hev H.
    destruct (warning_only_after_exception w ev Hev H) as (e & He & _).
    congruence.
  - rewrite run_run_cases. unfold run_cases. rewrite Hc, Hb, Ho. cbn zeta.
    destruct (serve_phase_trace w (startup_trace w ++ announce_trace w))
      as [post Hpost].
    exists post. rewrite Hpost, <- app_assoc. reflexivity.
  - exact warning_only_after_exception.
Qed.

Lemma C10_unsuccessful_return_is_silent_witness :
  (forall ev, In ev browser_warning -> ~ In ev (snd (run browser_false)))
  /\ (exists post,
         snd (run browser_false)
         = startup_trace browser_false ++ announce_trace browser_false
             ++ [EvServeForever (script_dir browser_false)] ++ post)
  /\ (forall w' ev, In ev browser_warning -> In ev (snd (run w')) ->
        exists e, webbrowser_open w' server_url = Raise e
                  /\ isinstance_Exception e = true).
Proof.
  apply (C10_unsuccessful_return_is_silent browser_false false);
    reflexivity.
Defined.

(** * Properties of the request handler *)

(** ** The script's [end_headers] against the library's *)

Lemma script_view_new : script_view new_handler = new_handler.
Proof. reflexivity. Qed.

Ltac absurd_branch :=
  match goal with
  | H : (_ && false && _) = true |- _ =>
      rewrite andb_false_r in H; discriminate H
  end.

Ltac split_branch :=
  match goal with
  | |- context [match ?x with _ => _ end] =>
      lazymatch x with
      | context [match _ with _ => _ end] => fail
      | _ => destruct x eqn:?
      end
  end.

Ltac reduce_state :=
  unfold view_sent;
  cbn [set_command set_path set_request_version set_close_connection
       set_headers set_headers_buffer write script_view view_result
       view_sent command path request_version close_connection headers
       _headers_buffer wfile fst snd].

Section Simulation.

Variable e : env.

Local Abbreviation base := SimpleHTTPRequestHandler.
Local Abbreviation custom := CustomHTTPRequestHandler.

Lemma sv_set_command c h :
  set_command c (script_view h) = script_view (set_command c h).
Proof. reflexivity. Qed.

Lemma sv_set_path p h :
  set_path p (script_view h) = script_view (set_path p h).
Proof. reflexivity. Qed.

Lemma sv_set_request_version v h :
  set_request_version v (script_view h)
  = script_view (set_request_version v h).
Proof. reflexivity. Qed.

Lemma sv_set_close_connection b h :
  set_close_connection b (script_view h)
  = script_view (set_close_connection b h).
Proof. reflexivity. Qed.

Lemma sv_set_headers f h :
  set_headers f (script_view h) = script_view (set_headers f h).
Proof. reflexivity. Qed.

Lemma sv_write_body d h :
  write (Body d) (script_view h) = script_view (write (Body d) h).
Proof.
  unfold write, script_view; cbn. rewrite map_app. reflexivity.
Qed.

Lemma sv_send_response_only code m h :
  send_response_only code m (script_view h)
  = script_view (send_response_only code m h).
Proof.
  unfold send_response_only. cbn [script_view request_version].
  destruct (String.eqb (request_version h) "HTTP/0.9"); reflexivity.
Qed.

Lemma sv_send_header k v h :
  send_header k v (script_view h) = script_view (send_header k v h).
Proof.
  unfold send_header. cbn [script_view request_version].
  destruct (String.eqb (request_version h) "HTTP/0.9");
    destruct (String.eqb (lower k) "connection");
    destruct (String.eqb (lower v) "close");
    destruct (String.eqb (lower v) "keep-alive"); reflexivity.
Qed.

(** The heart of the matter: where the library ends a header block, the
    script ends the same block with the cache header added. *)
Lemma sv_end_headers h :
  end_headers (RequestHandlerClass := custom) (script_view h)
  = script_view (end_headers (RequestHandlerClass := base) h).
Proof.
  cbn [end_headers custom base].
  rewrite sv_send_header.
  unfold send_header, BaseHTTPRequestHandler_end_headers.
  replace (String.eqb (lower "Cache-Control") "connection") with false
    by reflexivity.
  cbn [script_view request_version].
  destruct (String.eqb (request_version h) "HTTP/0.9") eqn:E.
  - rewrite E. reflexivity.
  - cbn [set_headers_buffer request_version]. rewrite E.
    unfold flush_headers, write, set_headers_buffer, script_view; cbn.
    rewrite map_app. cbn [map add_cache_control].
    rewrite removelast_last, last_last, <- app_assoc. reflexivity.
Qed.

Lemma sv_send_response code m h :
  send_response e code m (script_view h)
  = script_view (send_response e code m h).
Proof.
  unfold send_response.
  rewrite sv_send_response_only, !sv_send_header. reflexivity.
Qed.

Lemma sv_is_command name h :
  is_command name (script_view h) = is_command name h.
Proof. reflexivity. Qed.

Lemma sv_send_error code m x h :
  send_error (cls := custom) e code m x (script_view h)
  = script_view (send_error (cls := base) e code m x h).
Proof.
  unfold send_error.
  destruct (responses code) as [[shortmsg longmsg]|];
    destruct ((200 <=? code)
              && negb ((code =? 204) || (code =? 205) || (code =? 304)));
    cbv zeta;
    rewrite sv_send_response, !sv_send_header, sv_end_headers,
      ?sv_is_command;
    try reflexivity;
    match goal with
    | |- context [if ?b then _ else _] => destruct b
    end; rewrite ?sv_write_body; reflexivity.
Qed.

Lemma sv_handle_expect_100 h :
  handle_expect_100 (cls := custom) (script_view h)
  = (true, script_view (snd (handle_expect_100 (cls := base) h))).
Proof.
  unfold handle_expect_100.
  rewrite sv_send_response_only, sv_end_headers. reflexivity.
Qed.

Lemma sv_parse_request req h :
  parse_request (cls := custom) e req (script_view h)
  = view_result (parse_request (cls := base) e req h).
Proof.
  unfold parse_request.
  change (str_ge protocol_version "HTTP/1.1") with false.
  reduce_state.
  repeat (first [absurd_branch | split_branch; reduce_state]).
  all: rewrite <- ?sv_send_error; reflexivity.
Qed.

Lemma sv_list_directory p h :
  list_directory (cls := custom) e p (script_view h)
  = view_sent (list_directory (cls := base) e p h).
Proof.
  unfold list_directory. reduce_state.
  destruct (directory_page e p (path h)); reduce_state.
  - rewrite <- sv_end_headers, <- !sv_send_header, <- sv_send_response.
    reflexivity.
  - rewrite <- sv_send_error. reflexivity.
Qed.

Lemma sv_send_head h :
  send_head (cls := custom) e (script_view h)
  = view_sent (send_head (cls := base) e h).
Proof.
  unfold send_head. reduce_state.
  change (use_browser_cache e (script_view h))
    with (use_browser_cache e h).
  repeat (split_branch; reduce_state).
  all: rewrite <- ?sv_send_error, <- ?sv_end_headers, <- ?sv_send_header,
         <- ?sv_send_response, ?sv_list_directory;
       reflexivity.
Qed.

Lemma sv_do_GET h :
  do_GET (cls := custom) e (script_view h)
  = script_view (do_GET (cls := base) e h).
Proof.
  unfold do_GET. rewrite sv_send_head.
  destruct (send_head (cls := base) e h) as [[data|] h']; reduce_state.
  - rewrite <- sv_write_body. reflexivity.
  - reflexivity.
Qed.

Lemma sv_do_HEAD h :
  do_HEAD (cls := custom) e (script_view h)
  = script_view (do_HEAD (cls := base) e h).
Proof. unfold do_HEAD. rewrite sv_send_head. reflexivity. Qed.

Lemma sv_handle_one_request req h :
  handle_one_request (cls := custom) e req (script_view h)
  = script_view (handle_one_request (cls := base) e req h).
Proof.
  unfold handle_one_request. rewrite sv_parse_request.
  destruct (line_too_long req).
  { rewrite <- sv_send_error. reflexivity. }
  destruct (at_eof req); [reflexivity|].
  destruct (parse_request (cls := base) e req h) as [h'|h'];
    reduce_state; [reflexivity|].
  destruct (command h') as [c|]; [|reflexivity].
  destruct (String.eqb c "GET"); [apply sv_do_GET|].
  destruct (String.eqb c "HEAD"); [apply sv_do_HEAD|].
  apply sv_send_error.
Qed.

End Simulation.

(** The script's handler answers every request as the library's handler
    does, with the cache header added to each header block. *)
Lemma script_handler_simulates (e : env) (req : request) :
  handle_one_request (cls := CustomHTTPRequestHandler) e req new_handler
  = script_view
      (handle_one_request (cls := SimpleHTTPRequestHandler) e req new_handler).
Proof. rewrite <- sv_handle_one_request. reflexivity. Qed.

(** ** What the library's handler writes *)

Section Library.

Variable e : env.

Local Abbreviation base := SimpleHTTPRequestHandler.

(** The header methods keep the version, the command and what was
    written. *)
Lemma send_response_only_keeps code m h :
  request_version (send_response_only code m h) = request_version h
  /\ command (send_response_only code m h) = command h
  /\ wfile (send_response_only code m h) = wfile h.
Proof.
  unfold send_response_only.
  destruct (String.eqb (request_version h) "HTTP/0.9"); auto.
Qed.

Lemma send_header_keeps k v h :
  request_version (send_header k v h) = request_version h
  /\ command (send_header k v h) = command h
  /\ wfile (send_header k v h) = wfile h.
Proof.
  unfold send_header.
  destruct (String.eqb (request_version h) "HTTP/0.9");
    destruct (String.eqb (lower k) "connection");
    destruct (String.eqb (lower v) "close");
    destruct (String.eqb (lower v) "keep-alive"); auto.
Qed.

Lemma send_response_keeps code m h :
  request_version (send_response e code m h) = request_version h
  /\ command (send_response e code m h) = command h
  /\ wfile (send_response e code m h) = wfile h.
Proof.
  unfold send_response.
  destruct (send_response_only_keeps code m h) as (V0 & C0 & W0).
  destruct (send_header_keeps "Server" (version_string e)
              (send_response_only code m h)) as (V1 & C1 & W1).
  destruct (send_header_keeps "Date" (date_time_string e)
              (send_header "Server" (version_string e)
                 (send_response_only code m h))) as (V2 & C2 & W2).
  repeat split; congruence.
Qed.

(** [end_headers] writes the block, unless the version is HTTP/0.9. *)
Lemma end_headers_writes h :
  request_version (end_headers (RequestHandlerClass := base) h)
  = request_version h
  /\ command (end_headers (RequestHandlerClass := base) h) = command h
  /\ wfile (end_headers (RequestHandlerClass := base) h)
     = if String.eqb (request_version h) "HTTP/0.9" then wfile h
       else wfile h ++ [Headers (_headers_buffer h ++ [CRLF])].
Proof.
  cbn [end_headers base]. unfold BaseHTTPRequestHandler_end_headers.
  destruct (String.eqb (request_version h) "HTTP/0.9"); auto.
Qed.

Lemma answers_end_headers h0 h :
  request_version h = request_version h0 ->
  wfile h = wfile h0 ->
  answers h0 (end_headers (RequestHandlerClass := base) h).
Proof.
  intros V W. destruct (end_headers_writes h) as (V' & _ & W').
  split; [congruence|].
  rewrite W', V, W.
  destruct (String.eqb (request_version h0) "HTTP/0.9").
  - exists []. rewrite app_nil_r. split; [reflexivity|discriminate].
  - eexists. split; [reflexivity|]. intros _. eauto.
Qed.

(** Writing more after an answer is still an answer. *)
Lemma answers_write h0 h c :
  answers h0 h -> answers h0 (write c h).
Proof.
  intros (V & out & W & H). split; [exact V|].
  exists (out ++ [c]). cbn [write wfile]. rewrite W, app_assoc.
  split; [reflexivity|]. intros E.
  destruct (H E) as (lines & rest & ->). cbn. eauto.
Qed.

End Library.

Section Answers.

Variable e : env.

Local Abbreviation base := SimpleHTTPRequestHandler.

(** Rewrites the version and the output of a chain of header methods down
    to those of the handler the chain started from. *)
Ltac unwind_headers :=
  repeat match goal with
         | |- context [request_version (send_header ?k ?v ?h)] =>
             rewrite (proj1 (send_header_keeps k v h))
         | |- context [wfile (send_header ?k ?v ?h)] =>
             rewrite (proj2 (proj2 (send_header_keeps k v h)))
         | |- context [request_version (send_response e ?c ?m ?h)] =>
             rewrite (proj1 (send_response_keeps e c m h))
         | |- context [wfile (send_response e ?c ?m ?h)] =>
             rewrite (proj2 (proj2 (send_response_keeps e c m h)))
         end.

Lemma answers_send_error code m x h :
  answers h (send_error (cls := base) e code m x h).
Proof.
  unfold send_error.
  destruct (responses code) as [[shortmsg longmsg]|];
    destruct ((200 <=? code)
              && negb ((code =? 204) || (code =? 205) || (code =? 304)));
    cbv zeta;
    try match goal with
        | |- context [if ?b then _ else _] => destruct b
        end;
    try apply answers_write;
    apply answers_end_headers; unwind_headers; reflexivity.
Qed.

Lemma answers_list_directory p h :
  answers h (snd (list_directory (cls := base) e p h)).
Proof.
  unfold list_directory.
  destruct (directory_page e p (path h)); cbn [snd].
  - apply answers_end_headers.
    + destruct (send_header_keeps "Content-Length" (str (len s))
                  (send_header "Content-type"
                     ("text/html; charset=" +:+ sys_getfilesystemencoding e)
                     (send_response e 200 None h))) as (-> & _ & _).
      destruct (send_header_keeps "Content-type"
                  ("text/html; charset=" +:+ sys_getfilesystemencoding e)
                  (send_response e 200 None h)) as (-> & _ & _).
      apply send_response_keeps.
    + destruct (send_header_keeps "Content-Length" (str (len s))
                  (send_header "Content-type"
                     ("text/html; charset=" +:+ sys_getfilesystemencoding e)
                     (send_response e 200 None h))) as (_ & _ & ->).
      destruct (send_header_keeps "Content-type"
                  ("text/html; charset=" +:+ sys_getfilesystemencoding e)
                  (send_response e 200 None h)) as (_ & _ & ->).
      apply send_response_keeps.
  - apply answers_send_error.
Qed.

Lemma answers_send_head h :
  answers h (snd (send_head (cls := base) e h)).
Proof.
  unfold send_head.
  repeat (split_branch; cbn [snd]).
  all: first [ apply answers_send_error
             | apply answers_list_directory
             | apply answers_end_headers; unwind_headers; reflexivity ].
Qed.

Lemma answers_do_GET h : answers h (do_GET (cls := base) e h).
Proof.
  unfold do_GET. pose proof (answers_send_head h) as H.
  destruct (send_head (cls := base) e h) as [[data|] h']; cbn [snd] in H.
  - apply answers_write, H.
  - exact H.
Qed.

Lemma answers_do_HEAD h : answers h (do_HEAD (cls := base) e h).
Proof. apply answers_send_head. Qed.

Lemma answers_well_answered h h' :
  wfile h = [] -> answers h h' -> well_answered h'.
Proof.
  intros W (V & out & W' & H) E. rewrite V in E.
  destruct (H E) as (lines & rest & ->).
  right. exists lines, rest. rewrite W', W. reflexivity.
Qed.

Lemma parse_request_well_answered req h :
  wfile h = [] ->
  match parse_request (cls := base) e req h with
  | inl h' => well_answered h'
  | inr h' => wfile h' = []
  end.
Proof.
  intros W. unfold parse_request.
  change (str_ge protocol_version "HTTP/1.1") with false.
  reduce_state.
  repeat (first [absurd_branch | split_branch; reduce_state]).
  all: first
         [ exact W
         | intros _; left; exact W
         | eapply answers_well_answered; [|apply answers_send_error];
           reduce_state; exact W ].
Qed.

Lemma handle_one_request_well_answered req h :
  wfile h = [] ->
  well_answered (handle_one_request (cls := base) e req h).
Proof.
  intros W. unfold handle_one_request.
  destruct (line_too_long req).
  { eapply answers_well_answered; [|apply answers_send_error]. exact W. }
  destruct (at_eof req); [intros _; left; exact W|].
  pose proof (parse_request_well_answered req h W) as H.
  destruct (parse_request (cls := base) e req h) as [h'|h']; [exact H|].
  destruct (command h') as [c|]; [|intros _; left; exact H].
  destruct (String.eqb c "GET");
    [eapply answers_well_answered; [exact H|apply answers_do_GET]|].
  destruct (String.eqb c "HEAD");
    [eapply answers_well_answered; [exact H|apply answers_do_HEAD]|].
  eapply answers_well_answered; [exact H|apply answers_send_error].
Qed.

End Answers.

(** ** The cache header *)

Lemma add_cache_control_has_header (w : list chunk) (lines : list string) :
  In (Headers lines) (map add_cache_control w) ->
  In cache_control_line lines.
Proof.
  rewrite in_map_iff. intros ([l|d] & E & _); cbn in E; [|discriminate].
  injection E as <-. apply in_or_app. right. left. reflexivity.
Qed.

(** Nothing the library put in a block is lost. *)
Lemma add_cache_control_keeps (lines : list string) (x : string) :
  In x lines ->
  match add_cache_control (Headers lines) with
  | Headers lines' => In x lines'
  | Body _ => False
  end.
Proof.
  intros H. cbn.
  destruct lines as [|l0 ls]; [contradiction|].
  assert (Hne : l0 :: ls <> []) by discriminate.
  rewrite (app_removelast_last CRLF Hne) in H.
  apply in_app_or in H as [H|H]; apply in_or_app; [left; exact H|].
  right. right. exact H.
Qed.

(** C2 (counterexample).  An HTTP/0.9 simple request, [GET /app.js] with no
    version, is answered with the bytes of the file and nothing else: for
    that request version [send_response_only], [send_header] and
    [end_headers] write nothing, so the response has no header block and no
    cache header. *)
Lemma C2_counterexample :
  wfile (handle_one_request (cls := CustomHTTPRequestHandler)
           (haven_site odd_platform) simple_get new_handler)
  = [Body "console.log(1)"]
  /\ has_headers
       (wfile (handle_one_request (cls := CustomHTTPRequestHandler)
                 (haven_site odd_platform) simple_get new_handler))
     = false.
Proof. split; vm_compute; reflexivity. Qed.

(** The same holds for the errors sent while the request line is parsed,
    when the handler's request version is still the default HTTP/0.9: a
    line that is not HTTP, and a version the server does not support. *)
Lemma malformed_request_line_gets_no_headers :
  wfile (handle_one_request (cls := CustomHTTPRequestHandler)
           (haven_site odd_platform) garbage_line new_handler)
  = [Body "<h1>400 Bad request syntax ('hello')</h1><p>Bad request syntax or unsupported method</p>"]
  /\ wfile (handle_one_request (cls := CustomHTTPRequestHandler)
              (haven_site odd_platform) get_http2 new_handler)
     = [Body "<h1>505 Invalid HTTP version (2.0)</h1><p>Cannot fulfill request</p>"].
Proof. split; vm_compute; reflexivity. Qed.

(** C2 (amended).  For every request, whatever the path and the outcome:
    the script's handler writes what the library's handler writes, with the
    line [Cache-Control: public, max-age=0] put into every header block
    before the empty line that ends it; so every header block it writes has
    that line.  Unless the handler's request version is HTTP/0.9 when the
    request has been handled, a response that is not empty starts with a
    header block, which carries the cache header. *)
Theorem C2_cache_header_with_every_header_block (e : env) (req : request) :
  let answer :=
    handle_one_request (cls := CustomHTTPRequestHandler) e req new_handler in
  let plain :=
    handle_one_request (cls := SimpleHTTPRequestHandler) e req new_handler in
  wfile answer = map add_cache_control (wfile plain)
  /\ (forall lines, In (Headers lines) (wfile answer) ->
                    In cache_control_line lines)
  /\ (request_version answer <> "HTTP/0.9" ->
      wfile answer <> [] ->
      exists lines rest,
        wfile answer = Headers lines :: rest
        /\ In cache_control_line lines).
Proof.
  intros answer plain.
  assert (Hsim : answer = script_view plain)
    by apply script_handler_simulates.
  assert (Hw : wfile answer = map add_cache_control (wfile plain))
    by (rewrite Hsim; reflexivity).
  split; [exact Hw|]. split.
  - intros lines. rewrite Hw. apply add_cache_control_has_header.
  - intros Hv Hne.
    assert (Hplain : well_answered plain)
      by (apply handle_one_request_well_answered; reflexivity).
    assert (E : String.eqb (request_version plain) "HTTP/0.9" = false).
    { apply String.eqb_neq. rewrite Hsim in Hv. exact Hv. }
    destruct (Hplain E) as [Hnil|(lines & rest & Hl)].
    + rewrite Hw, Hnil in Hne. contradiction.
    + rewrite Hw, Hl. cbn [map add_cache_control].
      eexists. eexists. split; [reflexivity|].
      apply in_or_app. right. left. reflexivity.
Qed.

Lemma C2_cache_header_with_every_header_block_witness :
  exists lines rest,
    wfile (handle_one_request (cls := CustomHTTPRequestHandler)
             (haven_site odd_platform) get_missing new_handler)
    = Headers lines :: rest
    /\ In cache_control_line lines.
Proof.
  apply (proj2 (proj2 (C2_cache_header_with_every_header_block
                         (haven_site odd_platform) get_missing))).
  - vm_compute. discriminate.
  - vm_compute. discriminate.
Defined.

(** * Properties of the string functions *)

#[local] Arguments append : simpl nomatch.

Lemma append_assoc (a b c : string) : (a +:+ b) +:+ c = a +:+ (b +:+ c).
Proof. induction a as [|x a IH]; cbn; [reflexivity|]. rewrite IH. reflexivity. Qed.

Lemma length_append (a b : string) :
  String.length (a +:+ b) = (String.length a + String.length b)%nat.
Proof. induction a as [|x a IH]; cbn; [reflexivity|]. rewrite IH. reflexivity. Qed.

(** ** [rfind] *)

Lemma rfind_from_range (c : ascii) (s : string) (i : Z) :
  0 <= i ->
  rfind_from c s i = -1
  \/ i <= rfind_from c s i < i + Z.of_nat (String.length s).
Proof.
  revert i. induction s as [|a s IH]; intros i Hi; cbn [rfind_from].
  - left. reflexivity.
  - cbn [String.length]. destruct (IH (i + 1)) as [E|E]; [lia| |].
    + rewrite E. cbn. destruct (Ascii.eqb a c); [right; lia|left; reflexivity].
    + destruct (0 <=? rfind_from c s (i + 1)) eqn:L; [right; lia|].
      apply Z.leb_gt in L. lia.
Qed.

Lemma rfind_from_no_char (c : ascii) (s : string) (i : Z) :
  no_char c s = true -> rfind_from c s i = -1.
Proof.
  revert i. induction s as [|a s IH]; intros i H; cbn in *; [reflexivity|].
  apply andb_prop in H as [Ha Hs]. rewrite (IH _ Hs). cbn.
  apply negb_true_iff in Ha. rewrite Ha. reflexivity.
Qed.

Lemma rfind_from_app (c : ascii) (a b : string) (i : Z) :
  0 <= i ->
  rfind_from c (a +:+ b) i
  = if 0 <=? rfind_from c b (i + Z.of_nat (String.length a))
    then rfind_from c b (i + Z.of_nat (String.length a))
    else rfind_from c a i.
Proof.
  revert i. induction a as [|x a IH]; intros i Hi.
  - cbn. rewrite Z.add_0_r.
    destruct (rfind_from_range c b i Hi) as [E|E].
    + rewrite E. reflexivity.
    + destruct (0 <=? rfind_from c b i) eqn:L; [reflexivity|].
      apply Z.leb_gt in L. lia.
  - cbn [append rfind_from String.length]. rewrite IH by lia.
    replace (i + 1 + Z.of_nat (String.length a))
      with (i + Z.of_nat (S (String.length a))) by lia.
    destruct (0 <=? rfind_from c b (i + Z.of_nat (S (String.length a))))
      eqn:L; [rewrite L; reflexivity|reflexivity].
Qed.

(** The last occurrence, when nothing after it is the character. *)
Lemma rfind_last (c : ascii) (a e : string) :
  no_char c e = true ->
  rfind c (a +:+ String c e) = Z.of_nat (String.length a).
Proof.
  intros He. unfold rfind. rewrite rfind_from_app by lia.
  cbn [rfind_from]. rewrite (rfind_from_no_char c e _ He).
  replace (0 <=? -1) with false by reflexivity.
  rewrite Ascii.eqb_refl, Z.add_0_l.
  destruct (0 <=? Z.of_nat (String.length a)) eqn:L; [reflexivity|].
  apply Z.leb_gt in L. lia.
Qed.

(** ** [splitext] *)

Lemma name_before_dot_found (p : string) (x : ascii) (n i j : nat) :
  (i <= j < i + n)%nat ->
  String.get j p = Some x -> x <> "."%char ->
  name_before_dot p i n = true.
Proof.
  revert i. induction n as [|n IH]; intros i Hj Hget Hx; [lia|].
  cbn [name_before_dot].
  destruct (String.get i p) as [c|] eqn:G; [|reflexivity].
  destruct (Ascii.eqb_spec c ".") as [->|_]; [|reflexivity].
  apply IH; [|exact Hget|exact Hx].
  destruct (Nat.eq_dec i j) as [->|]; [congruence|lia].
Qed.

Lemma get_after (a r : string) (x : ascii) :
  String.get (String.length a) (a +:+ String x r) = Some x.
Proof. induction a as [|y a IH]; cbn; [reflexivity|exact IH]. Qed.

Lemma substring_all (s : string) : substring 0 (String.length s) s = s.
Proof. induction s as [|x s IH]; cbn; [reflexivity|]. rewrite IH. reflexivity. Qed.

Lemma substring_head (a b : string) :
  substring 0 (String.length a) (a +:+ b) = a.
Proof.
  induction a as [|x a IH]; cbn.
  - destruct b; reflexivity.
  - rewrite IH. reflexivity.
Qed.

Lemma substring_tail (a b : string) (n : nat) :
  substring (String.length a) n (a +:+ b) = substring 0 n b.
Proof. induction a as [|x a IH]; cbn; [reflexivity|exact IH]. Qed.

(** What [splitext] does to a path that ends in a dot and a suffix free of
    dots and slashes, when the file name has more than dots before it. *)
Lemma splitext_suffix (root e : string) :
  has_name root ->
  no_char "." e = true -> no_char "/" e = true ->
  splitext (root +:+ String "." e) = (root, String "." e).
Proof.
  intros (a & x & b & -> & Hdot & Hslash & Hb) He Hs.
  set (root := a +:+ String x b).
  set (p := root +:+ String "." e).
  assert (Hd : rfind "." p = Z.of_nat (String.length root))
    by (apply rfind_last, He).
  assert (Hsep : rfind "/" p < Z.of_nat (String.length a)).
  { unfold rfind, p, root. rewrite append_assoc.
    rewrite rfind_from_app by lia.
    rewrite rfind_from_no_char.
    - cbn. destruct (rfind_from_range "/" a 0) as [E|E]; lia.
    - cbn [append no_char]. apply andb_true_intro. split.
      + apply negb_true_iff, Ascii.eqb_neq. exact Hslash.
      + clear -Hb Hs. induction b as [|y b IH]; cbn in *.
        * exact Hs.
        * apply andb_prop in Hb as [Hy Hb]. rewrite Hy. cbn. auto. }
  assert (Hlow : -1 <= rfind "/" p).
  { unfold rfind. destruct (rfind_from_range "/" p 0) as [E|E]; lia. }
  assert (Hlen : String.length root = (String.length a + S (String.length b))%nat)
    by (unfold root; rewrite length_append; reflexivity).
  unfold splitext. fold p. rewrite Hd.
  replace (rfind "/" p <? Z.of_nat (String.length root)) with true
    by (symmetry; apply Z.ltb_lt; lia).
  rewrite (name_before_dot_found p x _ _ (String.length a)).
  - cbn [andb]. unfold slice_to, slice_from. rewrite Nat2Z.id.
    unfold p. rewrite substring_head, substring_tail, length_append.
    replace (String.length root + String.length (String "." e)
             - String.length root)%nat
      with (String.length (String "." e)) by lia.
    rewrite substring_all. reflexivity.
  - lia.
  - unfold p, root. rewrite append_assoc. apply get_after.
  - exact Hdot.
Qed.

(** ** The loop of [mimetypes.guess_type] ends *)

Lemma expand_suffix_done (fuel : nat) (base ext : string) :
  mimetypes.suffix_map !! lower ext = None ->
  mimetypes.expand_suffix fuel base ext = Some (base, ext).
Proof. intros H. destruct fuel; cbn; rewrite H; reflexivity. Qed.

Lemma suffix_map_values (k long : string) :
  mimetypes.suffix_map !! k = Some long ->
  In long [".svg.gz"; ".tar.gz"; ".tar.bz2"; ".tar.xz"].
Proof.
  unfold mimetypes.suffix_map. intros H.
  repeat (apply lookup_insert_Some in H as [[_ <-]|[_ H]]; [cbn; tauto|]).
  apply lookup_singleton_Some in H as [_ <-]. cbn; tauto.
Qed.

(** One round of the loop leaves an extension that the suffix map does not
    know. *)
Lemma expand_once (base long : string) :
  In long [".svg.gz"; ".tar.gz"; ".tar.bz2"; ".tar.xz"] ->
  mimetypes.suffix_map !! lower (snd (splitext (base +:+ long))) = None.
Proof.
  assert (Hname : forall x r,
             x <> "."%char -> x <> "/"%char -> no_char "/" r = true ->
             has_name (base +:+ String "." (String x r))).
  { intros x r H1 H2 H3. exists (base +:+ "."), x, r.
    rewrite append_assoc. auto. }
  intros [<-|[<-|[<-|[<-|[]]]]].
  - change (base +:+ ".svg.gz") with (base +:+ (".svg" +:+ String "." "gz")).
    rewrite <- append_assoc, splitext_suffix;
      [reflexivity|apply Hname; [discriminate|discriminate|]|..]; reflexivity.
  - change (base +:+ ".tar.gz") with (base +:+ (".tar" +:+ String "." "gz")).
    rewrite <- append_assoc, splitext_suffix;
      [reflexivity|apply Hname; [discriminate|discriminate|]|..]; reflexivity.
  - change (base +:+ ".tar.bz2") with (base +:+ (".tar" +:+ String "." "bz2")).
    rewrite <- append_assoc, splitext_suffix;
      [reflexivity|apply Hname; [discriminate|discriminate|]|..]; reflexivity.
  - change (base +:+ ".tar.xz") with (base +:+ (".tar" +:+ String "." "xz")).
    rewrite <- append_assoc, splitext_suffix;
      [reflexivity|apply Hname; [discriminate|discriminate|]|..]; reflexivity.
Qed.

Lemma expand_suffix_total (fuel : nat) (base ext : string) :
  (0 < fuel)%nat ->
  exists r, mimetypes.expand_suffix fuel base ext = Some r.
Proof.
  destruct fuel as [|fuel]; [lia|]. intros _. cbn [mimetypes.expand_suffix].
  destruct (mimetypes.suffix_map !! lower ext) as [long|] eqn:E;
    [|eauto].
  apply suffix_map_values in E.
  pose proof (expand_once base long E) as H.
  destruct (splitext (base +:+ long)) as [base' ext']. cbn [snd] in H.
  destruct fuel; cbn [mimetypes.expand_suffix]; rewrite H; eauto.
Qed.

(** [mimetypes.guess_type] always returns: the length of the URL is fuel
    enough. *)
Lemma mimetypes_guess_type_total (types : gmap string string) (url : string) :
  exists r, mimetypes.guess_type types url = Some r.
Proof.
  unfold mimetypes.guess_type.
  destruct (_splittype url) as [scheme rest].
  destruct (match scheme with
            | Some t => String.eqb t "data"
            | None => false
            end); [eauto|].
  destruct (splitext rest) as [base ext] eqn:S.
  destruct (mimetypes.suffix_map !! lower ext) as [long|] eqn:E.
  - destruct (expand_suffix_total (String.length rest) base ext)
      as [[base' ext'] ->].
    + destruct rest; [|cbn; lia].
      vm_compute in S. injection S as <- <-. vm_compute in E. discriminate E.
    + destruct (mimetypes.encodings_map !! ext'); eauto.
  - rewrite expand_suffix_done by exact E.
    destruct (mimetypes.encodings_map !! ext); eauto.
Qed.

(** * Properties of the MIME table *)

(** ** The table after startup *)

Lemma startup_types_map_overrides (platform_default : gmap string string)
    (ext ctype : string) :
  overridden ext ctype ->
  startup_types_map platform_default !! ext = Some ctype.
Proof.
  unfold startup_types_map, mimetypes.add_type.
  intros [[-> ->]|[[-> ->]|[-> ->]]].
  - rewrite !lookup_insert_ne by discriminate. apply lookup_insert_eq.
  - rewrite lookup_insert_ne by discriminate. apply lookup_insert_eq.
  - apply lookup_insert_eq.
Qed.

(** Every other extension keeps the type the platform gave it. *)
Lemma startup_types_map_elsewhere (platform_default : gmap string string)
    (ext : string) :
  ext <> ".js" -> ext <> ".mjs" -> ext <> ".webmanifest" ->
  startup_types_map platform_default !! ext = platform_default !! ext.
Proof.
  intros H1 H2 H3. unfold startup_types_map, mimetypes.add_type.
  rewrite !lookup_insert_ne by congruence. reflexivity.
Qed.

(** ** Looking an extension up *)

(** An extension that reads [.js], [.mjs] or [.webmanifest] in lower case is
    none of the compression suffixes. *)
Lemma overridden_not_compressed (ext0 ctype : string) :
  overridden (lower ext0) ctype ->
  extensions_map !! ext0 = None
  /\ extensions_map !! lower ext0 = None
  /\ mimetypes.suffix_map !! lower ext0 = None
  /\ mimetypes.encodings_map !! ext0 = None.
Proof.
  intros H.
  assert (Hk : forall k,
             In k [".gz"; ".Z"; ".bz2"; ".xz"; ".br"] -> ext0 <> k).
  { intros k Hin ->. cbn in Hin.
    destruct H as [[H _]|[[H _]|[H _]]];
      repeat destruct Hin as [<-|Hin]; try contradiction;
      vm_compute in H; discriminate H. }
  repeat split.
  - unfold extensions_map.
    rewrite !lookup_insert_ne, lookup_singleton_ne; [reflexivity|..];
      intros E; symmetry in E; revert E; apply Hk; cbn; auto.
  - destruct H as [[-> _]|[[-> _]|[-> _]]]; vm_compute; reflexivity.
  - destruct H as [[-> _]|[[-> _]|[-> _]]]; vm_compute; reflexivity.
  - unfold mimetypes.encodings_map.
    rewrite !lookup_insert_ne, lookup_singleton_ne; [reflexivity|..];
      intros E; symmetry in E; revert E; apply Hk; cbn; auto 10.
Qed.

Lemma _splittype_no_scheme (p url : string) :
  _splittype p = (None, url) -> url = p.
Proof.
  unfold _splittype.
  destruct (scan_scheme p) as [[[|c scheme] data]|]; congruence.
Qed.

(** [mimetypes.guess_type] on a path with one of the three extensions
    answers from the table, with no encoding. *)
Lemma mimetypes_guess_type_overridden (types : gmap string string)
    (p ctype : string) :
  local_path p ->
  overridden (extension p) ctype ->
  types !! extension p = Some ctype ->
  mimetypes.guess_type types p = Some (Some ctype, None).
Proof.
  unfold local_path, extension, mimetypes.guess_type.
  intros Hlocal Hext Htypes.
  destruct (overridden_not_compressed _ _ Hext) as (_ & _ & Hsuf & Henc).
  assert (Hgo : forall url,
             snd (splitext url) = snd (splitext p) ->
             (let '(base, ext) := splitext url in
              match mimetypes.expand_suffix (String.length url) base ext with
              | Some (base0, ext0) =>
                  let '(encoding, ext1) :=
                    match mimetypes.encodings_map !! ext0 with
                    | Some enc => (Some enc, snd (splitext base0))
                    | None => (None, ext0)
                    end in
                  Some (types !! lower ext1, encoding)
              | None => None
              end) = Some (Some ctype, None)).
  { intros url Hsame. destruct (splitext url) as [base ext].
    cbn [snd] in Hsame. subst ext.
    rewrite expand_suffix_done by exact Hsuf.
    rewrite Henc, Htypes. reflexivity. }
  destruct (_splittype p) as [[scheme|] url] eqn:E.
  - destruct Hlocal as [Hdata Hsame].
    destruct (String.eqb_spec scheme "data") as [->|_]; [contradiction|].
    apply Hgo, Hsame.
  - apply _splittype_no_scheme in E as ->. apply Hgo. reflexivity.
Qed.

(** The handler's [guess_type] gives the registered type, whatever the
    platform's table says. *)
Lemma guess_type_overridden (platform_default : gmap string string)
    (p ctype : string) :
  local_path p ->
  overridden (extension p) ctype ->
  guess_type (startup_types_map platform_default) p = ctype.
Proof.
  intros Hlocal Hext. unfold guess_type.
  pose proof (mimetypes_guess_type_overridden
                (startup_types_map platform_default) p ctype Hlocal Hext
                (startup_types_map_overrides _ _ _ Hext)) as Hguess.
  unfold extension in Hext.
  destruct (overridden_not_compressed _ _ Hext) as (H1 & H2 & _ & _).
  destruct (splitext p) as [base ext]. cbn [snd] in *.
  rewrite H1, H2, Hguess.
  destruct Hext as [[_ ->]|[[_ ->]|[_ ->]]]; reflexivity.
Qed.

(** An absolute POSIX path is a local path. *)
Lemma absolute_path_is_local (p : string) : local_path (String "/" p).
Proof. unfold local_path, _splittype. cbn. exact I. Qed.

(** A path that ends in [.js], [.mjs] or [.webmanifest] after a file name
    with more than dots in it has that extension, and so the registered
    type. *)
Lemma extension_of_suffix (root e : string) :
  has_name root ->
  no_char "." e = true -> no_char "/" e = true ->
  extension (root +:+ String "." e) = lower (String "." e).
Proof.
  intros Hroot He Hs. unfold extension.
  rewrite splitext_suffix by assumption. reflexivity.
Qed.

Lemma guess_type_by_name (platform_default : gmap string string)
    (root : string) :
  has_name root ->
  (local_path (root +:+ ".js") ->
   guess_type (startup_types_map platform_default) (root +:+ ".js")
   = "application/javascript")
  /\ (local_path (root +:+ ".mjs") ->
      guess_type (startup_types_map platform_default) (root +:+ ".mjs")
      = "application/javascript")
  /\ (local_path (root +:+ ".webmanifest") ->
      guess_type (startup_types_map platform_default)
                 (root +:+ ".webmanifest")
      = "application/manifest+json").
Proof.
  intros Hroot. repeat split; intros Hlocal;
    apply guess_type_overridden; try exact Hlocal;
    rewrite extension_of_suffix by first [exact Hroot | reflexivity];
    unfold overridden; cbn; tauto.
Qed.

(** ** The header block of a served file *)

Lemma send_response_only_appends (code : Z) (h : handler) :
  String.eqb (request_version h) "HTTP/0.9" = false ->
  send_response_only code None h
  = set_headers_buffer
      (_headers_buffer h
         ++ [protocol_version +:+ " " +:+ str code +:+ " "
               +:+ match responses code with
                   | Some (phrase, _) => phrase
                   | None => ""
                   end +:+ CRLF]) h.
Proof. intros E. unfold send_response_only. rewrite E. reflexivity. Qed.

Lemma send_header_appends (k v : string) (h : handler) :
  String.eqb (request_version h) "HTTP/0.9" = false ->
  String.eqb (lower k) "connection" = false ->
  send_header k v h
  = set_headers_buffer (_headers_buffer h ++ [k +:+ ": " +:+ v +:+ CRLF]) h.
Proof. intros E K. unfold send_header. rewrite E, K. reflexivity. Qed.

Lemma set_headers_buffer_twice (b1 b2 : list string) (h : handler) :
  set_headers_buffer b2 (set_headers_buffer b1 h) = set_headers_buffer b2 h.
Proof. reflexivity. Qed.

(** The 200 response of [send_head] for a regular file, header by header. *)
Lemma send_head_serves_file (e : env) (h : handler) (f : file) :
  let p := translate_path e (path h) in
  os_path_isdir e p = false ->
  endswith "/" p = false ->
  open_rb e p = Some f ->
  use_browser_cache e h f = false ->
  String.eqb (request_version h) "HTTP/0.9" = false ->
  send_head (cls := CustomHTTPRequestHandler) e h
  = (Some (content f),
     h |> write
            (Headers
               (_headers_buffer h
                  ++ [ "HTTP/1.0 200 OK" +:+ CRLF;
                       "Server: " +:+ version_string e +:+ CRLF;
                       "Date: " +:+ date_time_string e +:+ CRLF;
                       "Content-type: "
                         +:+ guess_type (types_map e) p +:+ CRLF;
                       "Content-Length: " +:+ str (st_size f) +:+ CRLF;
                       "Last-Modified: " +:+ last_modified f +:+ CRLF;
                       cache_control_line;
                       CRLF ]))
       |> set_headers_buffer []).
Proof.
  intros p Hdir Hslash Hopen Hcache E.
  unfold send_head. fold p. rewrite Hdir, Hslash, Hopen, Hcache.
  unfold send_response. cbn [end_headers CustomHTTPRequestHandler].
  rewrite send_response_only_appends by exact E.
  repeat (rewrite (send_header_appends _ _ (set_headers_buffer _ h))
            by first [exact E | reflexivity];
          reduce_state; rewrite set_headers_buffer_twice).
  unfold BaseHTTPRequestHandler_end_headers, flush_headers.
  reduce_state. rewrite E, <- !app_assoc. reflexivity.
Qed.

(** C3 (counterexample).  A request for a script that does not exist is
    answered with the 404 page, whose content type is that of the page,
    [text/html]; and a manifest in a file named [.webmanifest], a name in
    which [posixpath.splitext] finds no extension, is served as
    [application/octet-stream]. *)
Lemma C3_counterexample :
  header_lines_of
    (wfile (handle_one_request (cls := CustomHTTPRequestHandler)
              (haven_site odd_platform) get_missing_js new_handler))
  = [ "HTTP/1.0 404 File not found" +:+ CRLF;
      "Server: SimpleHTTP/0.6 Python/3.11.2" +:+ CRLF;
      "Date: Tue, 03 Nov 2026 09:30:00 GMT" +:+ CRLF;
      "Connection: close" +:+ CRLF;
      "Content-Type: text/html;charset=utf-8" +:+ CRLF;
      "Content-Length: 63" +:+ CRLF;
      cache_control_line;
      CRLF ]
  /\ header_lines_of
       (wfile (handle_one_request (cls := CustomHTTPRequestHandler)
                 (with_file "/opt/haven/.webmanifest" dot_manifest
                            (haven_site odd_platform))
                 get_dot_manifest new_handler))
     = [ "HTTP/1.0 200 OK" +:+ CRLF;
         "Server: SimpleHTTP/0.6 Python/3.11.2" +:+ CRLF;
         "Date: Tue, 03 Nov 2026 09:30:00 GMT" +:+ CRLF;
         "Content-type: application/octet-stream" +:+ CRLF;
         "Content-Length: 2" +:+ CRLF;
         "Last-Modified: Mon, 02 Nov 2026 10:00:00 GMT" +:+ CRLF;
         cache_control_line;
         CRLF ].
Proof. split; vm_compute; reflexivity. Qed.

(** C3 (amended).  Take the table the script sets up at startup, over any table of
    the platform, and a request that [send_head] answers with a file whose
    path has, in lower case, the extension [.js] or [.mjs] (then the type is
    [application/javascript]) or [.webmanifest] (then it is
    [application/manifest+json]).  The table holds that type for the
    extension, [guess_type] returns it, and the header block of the response
    has the line [Content-type:] with it, next to the headers of the static
    file handler and the cache header. *)
Theorem C3_registered_types_are_served (platform_default : gmap string string)
    (e : env) (h : handler) (f : file) (ctype : string) :
  types_map e = startup_types_map platform_default ->
  local_path (translate_path e (path h)) ->
  overridden (extension (translate_path e (path h))) ctype ->
  os_path_isdir e (translate_path e (path h)) = false ->
  endswith "/" (translate_path e (path h)) = false ->
  open_rb e (translate_path e (path h)) = Some f ->
  use_browser_cache e h f = false ->
  request_version h <> "HTTP/0.9" ->
  startup_types_map platform_default
    !! extension (translate_path e (path h)) = Some ctype
  /\ guess_type (types_map e) (translate_path e (path h)) = ctype
  /\ fst (send_head (cls := CustomHTTPRequestHandler) e h)
     = Some (content f)
  /\ wfile (snd (send_head (cls := CustomHTTPRequestHandler) e h))
     = wfile h
         ++ [Headers
               (_headers_buffer h
                  ++ [ "HTTP/1.0 200 OK" +:+ CRLF;
                       "Server: " +:+ version_string e +:+ CRLF;
                       "Date: " +:+ date_time_string e +:+ CRLF;
                       "Content-type: " +:+ ctype +:+ CRLF;
                       "Content-Length: " +:+ str (st_size f) +:+ CRLF;
                       "Last-Modified: " +:+ last_modified f +:+ CRLF;
                       cache_control_line;
                       CRLF ])].
Proof.
  intros Htypes Hlocal Hext Hdir Hslash Hopen Hcache Hv.
  assert (E : String.eqb (request_version h) "HTTP/0.9" = false)
    by (apply String.eqb_neq; exact Hv).
  assert (Hguess : guess_type (types_map e) (translate_path e (path h))
                   = ctype).
  { rewrite Htypes. apply guess_type_overridden; assumption. }
  split; [apply startup_types_map_overrides; exact Hext|].
  split; [exact Hguess|].
  rewrite (send_head_serves_file e h f Hdir Hslash Hopen Hcache E), Hguess.
  split; reflexivity.
Qed.

Lemma C3_registered_types_are_served_witness :
  startup_types_map odd_platform !! ".js" = Some "application/javascript"
  /\ guess_type (types_map (haven_site odd_platform)) "/opt/haven/app.js"
     = "application/javascript"
  /\ fst (send_head (cls := CustomHTTPRequestHandler)
            (haven_site odd_platform) serving_app_js)
     = Some "console.log(1)"
  /\ wfile (snd (send_head (cls := CustomHTTPRequestHandler)
                   (haven_site odd_platform) serving_app_js))
     = [Headers
          [ "HTTP/1.0 200 OK" +:+ CRLF;
            "Server: SimpleHTTP/0.6 Python/3.11.2" +:+ CRLF;
            "Date: Tue, 03 Nov 2026 09:30:00 GMT" +:+ CRLF;
            "Content-type: application/javascript" +:+ CRLF;
            "Content-Length: 14" +:+ CRLF;
            "Last-Modified: Mon, 02 Nov 2026 10:00:00 GMT" +:+ CRLF;
            cache_control_line;
            CRLF ]].
Proof.
  apply (C3_registered_types_are_served odd_platform
           (haven_site odd_platform) serving_app_js app_js
           "application/javascript").
  - reflexivity.
  - vm_compute. exact I.
  - left. split; reflexivity.
  - reflexivity.
  - reflexivity.
  - reflexivity.
  - reflexivity.
  - discriminate.
Defined.

(** The whole exchange for [GET /app.js HTTP/1.1] on a platform whose own
    table calls scripts plain text: status 200, the registered content type,
    the cache header, and the bytes of the file. *)
Example get_app_js_response :
  wfile (handle_one_request (cls := CustomHTTPRequestHandler)
           (haven_site odd_platform) get_app_js new_handler)
  = [ Headers
        [ "HTTP/1.0 200 OK" +:+ CRLF;
          "Server: SimpleHTTP/0.6 Python/3.11.2" +:+ CRLF;
          "Date: Tue, 03 Nov 2026 09:30:00 GMT" +:+ CRLF;
          "Content-type: application/javascript" +:+ CRLF;
          "Content-Length: 14" +:+ CRLF;
          "Last-Modified: Mon, 02 Nov 2026 10:00:00 GMT" +:+ CRLF;
          cache_control_line;
          CRLF ];
      Body "console.log(1)" ].
Proof. vm_compute. reflexivity. Qed.

(** * More on the lifecycle *)

Ltac all_answers :=
  rewrite ?run_run_cases;
  unfold run_cases, serve_phase, top_level;
  repeat match goal with
         | |- context [match ?x with _ => _ end] =>
             lazymatch x with
             | context [match _ with _ => _ end] => fail
             | _ => destruct x eqn:?
             end
         end.

(** X1.  The listening socket is closed exactly once in every run in which
    it was bound and the process ends (by [sys.exit] or by an exception
    nothing catches), and never in a run that keeps serving or that did not
    get to bind; after the close the process does nothing but print. *)
Theorem socket_closed_on_every_way_out (w : world) :
  count_closes (snd (run w))
  = (if returned (os_chdir w (script_dir w))
        && returned (TCPServer_init w HOST PORT)
        && ended (fst (run w))
     then 1 else 0)%nat
  /\ match after_close (snd (run w)) with
     | Some rest => forallb is_print rest = true
     | None => True
     end.
Proof.
  rewrite run_run_cases. unfold run_cases, serve_phase, top_level.
  destruct (os_chdir w (script_dir w)) as [[]|e0]; [|split; reflexivity].
  destruct (TCPServer_init w HOST PORT) as [[]|[errno msg| |c msg]];
    try destruct (errno_in_use errno);
    try (split; [reflexivity|exact I]).
  cbn zeta.
  destruct (webbrowser_open w server_url) as [b|[errno msg| |c msg]];
    cbn [isinstance_Exception];
    destruct (serve_forever_raises w) as [[errno' msg'| |c' msg']|];
    try destruct (errno_in_use errno');
    split; first [reflexivity | exact I].
Qed.

(** X2.  An interrupt that arrives before the serve loop, while the socket
    is being bound or while the browser is being opened, is not taken for a
    browser failure: the process prints the shutdown confirmation and exits
    with status 0 without entering the serve loop, closing the socket first
    when it was bound. *)
Theorem interrupt_before_serving (w : world) :
  os_chdir w (script_dir w) = Ret tt ->
  TCPServer_init w HOST PORT = Raise KeyboardInterrupt
  \/ (TCPServer_init w HOST PORT = Ret tt
      /\ webbrowser_open w server_url = Raise KeyboardInterrupt) ->
  run w
  = (Exited 0,
     startup_trace w
       ++ (if returned (TCPServer_init w HOST PORT)
           then announce_trace w ++ [EvServerClose]
           else [EvBind HOST PORT (script_dir w)])
       ++ shutdown_message)
  /\ served (snd (run w)) = false.
Proof.
  intros Hc [Hb|[Hb Ho]]; rewrite run_run_cases; unfold run_cases;
    rewrite Hc, Hb; [|rewrite Ho]; cbn; split; reflexivity.
Qed.

Lemma interrupt_before_serving_witness :
  run ctrl_c_at_browser
  = (Exited 0,
     startup_trace ctrl_c_at_browser
       ++ (if returned (TCPServer_init ctrl_c_at_browser HOST PORT)
           then announce_trace ctrl_c_at_browser ++ [EvServerClose]
           else [EvBind HOST PORT (script_dir ctrl_c_at_browser)])
       ++ shutdown_message)
  /\ served (snd (run ctrl_c_at_browser)) = false.
Proof.
  apply (interrupt_before_serving ctrl_c_at_browser).
  - reflexivity.
  - right. split; reflexivity.
Defined.

(** X3.  An [OSError] raised by the serve loop of a running server reaches
    the same clause as a bind error: the socket is closed, then the port
    diagnostic is printed when the error number is 48 or 98 and
    [Server error: ] with the message otherwise, and the process exits with
    status 1. *)
Theorem serve_loop_os_error (w : world) (errno : option Z) (msg : string) :
  os_chdir w (script_dir w) = Ret tt ->
  TCPServer_init w HOST PORT = Ret tt ->
  webbrowser_open w server_url <> Raise KeyboardInterrupt ->
  serve_forever_raises w = Some (OSError errno msg) ->
  fst (run w) = Exited 1
  /\ exists pre,
       snd (run w)
       = pre ++ [EvServeForever (script_dir w); EvServerClose]
             ++ (if errno_in_use errno then port_in_use_message
                 else [EvPrint ("Server error: " +:+ msg)]).
Proof.
  intros Hc Hb Ho Hs. rewrite run_run_cases. unfold run_cases.
  rewrite Hc, Hb. cbn zeta.
  assert (Hserve : forall t,
             serve_phase w t
             = (Exited 1,
                t ++ [EvServeForever (script_dir w); EvServerClose]
                  ++ (if errno_in_use errno then port_in_use_message
                      else [EvPrint ("Server error: " +:+ msg)]))).
  { intros t. unfold serve_phase. rewrite Hs. cbn [top_level].
    destruct (errno_in_use errno); rewrite <- app_assoc; reflexivity. }
  destruct (webbrowser_open w server_url) as [b|[errno2 msg2| |c2 msg2]];
    cbn [isinstance_Exception]; try congruence;
    rewrite Hserve; cbn [fst snd]; eauto.
Qed.

Lemma serve_loop_os_error_witness :
  fst (run serve_loop_breaks) = Exited 1
  /\ exists pre,
       snd (run serve_loop_breaks)
       = pre ++ [EvServeForever (script_dir serve_loop_breaks); EvServerClose]
             ++ (if errno_in_use (Some 5) then port_in_use_message
                 else [EvPrint ("Server error: "
                                  +:+ "[Errno 5] Input/output error")]).
Proof.
  apply (serve_loop_os_error serve_loop_breaks (Some 5)
           "[Errno 5] Input/output error");
    first [reflexivity | discriminate].
Defined.

(** X4.  The browser is asked at most once, only after the socket was bound,
    and for the URL of the very address that was bound. *)
Theorem browser_gets_bound_address (w : world) :
  browser_urls (snd (run w))
  = (if returned (os_chdir w (script_dir w))
        && returned (TCPServer_init w HOST PORT)
     then map url_of (bound_addresses (snd (run w)))
     else [])
  /\ (length (browser_urls (snd (run w))) <= 1)%nat.
Proof.
  rewrite run_run_cases. unfold run_cases, serve_phase, top_level.
  destruct (os_chdir w (script_dir w)) as [[]|e0]; [|split; cbn; [reflexivity|lia]].
  destruct (TCPServer_init w HOST PORT) as [[]|[errno msg| |c msg]];
    try destruct (errno_in_use errno);
    try (split; cbn; [reflexivity|lia]).
  cbn zeta.
  destruct (webbrowser_open w server_url) as [b|[errno msg| |c msg]];
    cbn [isinstance_Exception];
    destruct (serve_forever_raises w) as [[errno' msg'| |c' msg']|];
    try destruct (errno_in_use errno');
    split; cbn; first [reflexivity | lia].
Qed.

(** X5.  A run that ends by [sys.exit] ends with status 0 or 1, and with
    status 1 exactly when the directory was changed and an [OSError] reached
    the outer [try]. *)
Theorem exit_status_one_exactly (w : world) :
  (forall c, fst (run w) = Exited c -> c = 0 \/ c = 1)
  /\ (fst (run w) = Exited 1
      <-> os_chdir w (script_dir w) = Ret tt /\ os_error_reached w).
Proof.
  rewrite run_run_cases. unfold run_cases, serve_phase, top_level,
    os_error_reached.
  destruct (os_chdir w (script_dir w)) as [[]|e0].
  2:{ split; [discriminate|]. split; [discriminate|]. intros [H _].
      discriminate H. }
  destruct (TCPServer_init w HOST PORT) as [[]|[errno msg| |c msg]].
  2:{ destruct (errno_in_use errno); cbn [fst];
        (split; [intros c0 [= <-]; auto|]);
        (split; [intros _; split; [reflexivity|]; left; eauto|reflexivity]). }
  2:{ cbn [fst]. split; [intros c0 [= <-]; auto|].
      split; [discriminate|].
      intros [_ [(errno & msg & H)|(H & _)]]; discriminate H. }
  2:{ cbn [fst]. split; [discriminate|]. split; [discriminate|].
      intros [_ [(errno & msg0 & H)|(H & _)]]; discriminate H. }
  cbn zeta.
  assert (Hserve : forall t,
             (forall c, fst (serve_phase w t) = Exited c -> c = 0 \/ c = 1)
             /\ (fst (serve_phase w t) = Exited 1
                 <-> exists errno msg,
                       serve_forever_raises w = Some (OSError errno msg))).
  { intros t. unfold serve_phase, top_level.
    destruct (serve_forever_raises w) as [[errno msg| |c msg]|];
      try destruct (errno_in_use errno); cbn [fst];
      (split; [first [discriminate | intros c0 [= <-]; auto]|]);
      (split; [first [discriminate | eauto]|]);
      first [ reflexivity
            | intros (errno0 & msg0 & H); discriminate H ]. }
  fold (serve_phase w (startup_trace w ++ announce_trace w)).
  destruct (webbrowser_open w server_url) as [b|[errno msg| |c msg]];
    cbn [isinstance_Exception].
  - fold (serve_phase w (startup_trace w ++ announce_trace w)).
    destruct (Hserve (startup_trace w ++ announce_trace w)) as [H1 H2].
    split; [exact H1|]. rewrite H2. split.
    + intros H. split; [reflexivity|]. right.
      split; [reflexivity|]. split; [discriminate|exact H].
    + intros [_ [(errno & msg & H)|(_ & _ & H)]]; [discriminate H|exact H].
  - fold (serve_phase w ((startup_trace w ++ announce_trace w)
                           ++ browser_warning)).
    destruct (Hserve ((startup_trace w ++ announce_trace w)
                        ++ browser_warning)) as [H1 H2].
    split; [exact H1|]. rewrite H2. split.
    + intros H. split; [reflexivity|]. right.
      split; [reflexivity|]. split; [discriminate|exact H].
    + intros [_ [(errno0 & msg0 & H)|(_ & _ & H)]]; [discriminate H|exact H].
  - cbn [fst]. split; [intros c0 [= <-]; auto|]. split; [discriminate|].
    intros [_ [(errno0 & msg0 & H)|(_ & H & _)]];
      [discriminate H|contradiction].
  - fold (serve_phase w ((startup_trace w ++ announce_trace w)
                           ++ browser_warning)).
    destruct (Hserve ((startup_trace w ++ announce_trace w)
                        ++ browser_warning)) as [H1 H2].
    split; [exact H1|]. rewrite H2. split.
    + intros H. split; [reflexivity|]. right.
      split; [reflexivity|]. split; [discriminate|exact H].
    + intros [_ [(errno0 & msg0 & H)|(_ & _ & H)]]; [discriminate H|exact H].
Qed.

Lemma serve_phase_served (w : world) (t : list event) :
  served (snd (serve_phase w t)) = true.
Proof.
  destruct (serve_phase_trace w t) as [post ->].
  induction t as [|ev t IH]; [reflexivity|].
  destruct ev; cbn; first [reflexivity | exact IH].
Qed.

(** X6.  The serve loop is entered exactly when the directory was changed,
    the socket was bound and the browser call did not raise a
    [KeyboardInterrupt]; the process then keeps serving exactly when nothing
    is raised out of the loop. *)
Theorem serve_loop_reached_exactly (w : world) :
  (served (snd (run w)) = true
   <-> os_chdir w (script_dir w) = Ret tt
       /\ TCPServer_init w HOST PORT = Ret tt
       /\ webbrowser_open w server_url <> Raise KeyboardInterrupt)
  /\ (fst (run w) = Serving
      <-> served (snd (run w)) = true /\ serve_forever_raises w = None).
Proof.
  assert (Hout : forall t,
             fst (serve_phase w t) = Serving <-> serve_forever_raises w = None).
  { intros t. unfold serve_phase, top_level.
    destruct (serve_forever_raises w) as [[errno msg| |c msg]|];
      try destruct (errno_in_use errno); cbn [fst];
      split; first [discriminate | reflexivity]. }
  rewrite run_run_cases. unfold run_cases.
  destruct (os_chdir w (script_dir w)) as [[]|e0].
  2:{ cbn. split; split; try discriminate.
      - intros [H _]. discriminate H.
      - intros [H _]. discriminate H. }
  destruct (TCPServer_init w HOST PORT) as [[]|e1].
  2:{ assert (Hs : served (snd (top_level e1
                     (startup_trace w ++ [EvBind HOST PORT (script_dir w)])))
                   = false).
      { destruct e1 as [errno msg| |c msg]; cbn [top_level];
          try destruct (errno_in_use errno); reflexivity. }
      assert (Ho : fst (top_level e1
                     (startup_trace w ++ [EvBind HOST PORT (script_dir w)]))
                   <> Serving).
      { destruct e1 as [errno msg| |c msg]; cbn [top_level];
          try destruct (errno_in_use errno); discriminate. }
      rewrite Hs. split; split; try discriminate; try contradiction.
      - intros (_ & H & _). discriminate H.
      - intros [H _]. discriminate H. }
  cbn zeta.
  destruct (webbrowser_open w server_url) as [b|[errno msg| |c msg]];
    cbn [isinstance_Exception]; try rewrite serve_phase_served;
    try rewrite Hout.
  - split; split; try tauto.
    intros _. repeat split; discriminate.
  - split; split; try tauto.
    intros _. repeat split; discriminate.
  - cbn. split; split; try discriminate.
    + intros (_ & _ & H). contradiction.
    + intros [H _]. discriminate H.
  - split; split; try tauto.
    intros _. repeat split; discriminate.
Qed.


(** X15.  Where the number of "address already in use" is 98 or 48 (Linux,
    macOS), a bind that fails because the port is busy is recognised: the
    two lines of the port diagnostic, the first naming port 8765, are
    printed, the process exits with status 1, and it has bound once and
    never served. *)
Theorem port_diagnostic_on_linux_and_macos (w : world) (msg : string) :
  platform w <> Windows ->
  os_chdir w (script_dir w) = Ret tt ->
  TCPServer_init w HOST PORT
    = Raise (OSError (Some (errno_EADDRINUSE (platform w))) msg) ->
  run w = (Exited 1,
           startup_trace w ++ [EvBind HOST PORT (script_dir w)]
             ++ port_in_use_message)
  /\ bound_addresses (snd (run w)) = [(HOST, PORT)]
  /\ served (snd (run w)) = false
  /\ browser_urls (snd (run w)) = [].
Proof.
  intros Hp Hc Hb.
  assert (Hrun : run w = (Exited 1,
             startup_trace w ++ [EvBind HOST PORT (script_dir w)]
               ++ port_in_use_message)).
  { rewrite run_run_cases. unfold run_cases. rewrite Hc, Hb.
    cbn [top_level].
    destruct (platform w); try congruence; reflexivity. }
  rewrite Hrun. repeat split.
Qed.

Lemma port_diagnostic_on_linux_and_macos_witness :
  run linux_port_busy
  = (Exited 1,
     startup_trace linux_port_busy
       ++ [EvBind HOST PORT (script_dir linux_port_busy)]
       ++ port_in_use_message)
  /\ bound_addresses (snd (run linux_port_busy)) = [(HOST, PORT)]
  /\ served (snd (run linux_port_busy)) = false
  /\ browser_urls (snd (run linux_port_busy)) = [].
Proof.
  apply (port_diagnostic_on_linux_and_macos linux_port_busy
           "[Errno 98] Address already in use");
    first [reflexivity | discriminate].
Defined.

(** * More on the request handler *)

(** ** The library never sends the cache header itself *)

Lemma clean_app (l : list string) (x : string) :
  clean l -> x <> cache_control_line -> clean (l ++ [x]).
Proof.
  intros Hl Hx. apply Forall_app. split; [exact Hl|].
  constructor; [exact Hx|constructor].
Qed.

Lemma clean_send_response_only (code : Z) (m : option string) (h : handler) :
  clean_state h -> clean_state (send_response_only code m h).
Proof.
  intros [Hb Hw]. unfold send_response_only.
  destruct (String.eqb (request_version h) "HTTP/0.9"); [split; assumption|].
  split; [|exact Hw]. cbn [_headers_buffer set_headers_buffer].
  apply clean_app; [exact Hb|]. discriminate.
Qed.

Lemma clean_send_header (k v : string) (h : handler) :
  other_header k -> clean_state h -> clean_state (send_header k v h).
Proof.
  intros Hk [Hb Hw]. unfold send_header.
  assert (H : clean_state
                (if String.eqb (request_version h) "HTTP/0.9" then h
                 else set_headers_buffer
                        (_headers_buffer h ++ [k +:+ ": " +:+ v +:+ CRLF]) h)).
  { destruct (String.eqb (request_version h) "HTTP/0.9");
      [split; assumption|].
    split; [|exact Hw]. cbn [_headers_buffer set_headers_buffer].
    apply clean_app; [exact Hb|apply Hk]. }
  destruct (String.eqb (lower k) "connection"); [|exact H].
  destruct (String.eqb (lower v) "close"); [exact H|].
  destruct (String.eqb (lower v) "keep-alive"); exact H.
Qed.

Lemma started_send_response_only (code : Z) (m : option string) (h : handler) :
  started (send_response_only code m h).
Proof.
  unfold started, send_response_only.
  destruct (String.eqb (request_version h) "HTTP/0.9") eqn:E; [auto|].
  right. cbn [_headers_buffer set_headers_buffer].
  destruct (_headers_buffer h); discriminate.
Qed.

Lemma started_send_header (k v : string) (h : handler) :
  started (send_header k v h).
Proof.
  unfold started, send_header.
  destruct (String.eqb (request_version h) "HTTP/0.9") eqn:E;
    destruct (String.eqb (lower k) "connection");
    destruct (String.eqb (lower v) "close");
    destruct (String.eqb (lower v) "keep-alive");
    cbn [request_version _headers_buffer set_headers_buffer
         set_close_connection];
    first [ left; exact E
          | right; destruct (_headers_buffer h); discriminate ].
Qed.

Lemma clean_end_headers (h : handler) :
  started h -> clean_state h ->
  clean_state (end_headers (RequestHandlerClass := SimpleHTTPRequestHandler) h).
Proof.
  intros Hs [Hb Hw]. cbn [end_headers SimpleHTTPRequestHandler].
  unfold BaseHTTPRequestHandler_end_headers.
  destruct (String.eqb (request_version h) "HTTP/0.9") eqn:E;
    [split; assumption|].
  destruct Hs as [Hs|Hs]; [congruence|].
  split; [constructor|].
  intros lines. cbn. rewrite in_app_iff.
  intros [H|[[= <-]|[]]]; [apply Hw, H|].
  split; [|split].
  - apply clean_app; [exact Hb|discriminate].
  - apply last_last.
  - rewrite length_app. cbn. destruct (_headers_buffer h); [contradiction|].
    cbn. lia.
Qed.

Lemma clean_write_body (b : string) (h : handler) :
  clean_state h -> clean_state (write (Body b) h).
Proof.
  intros [Hb Hw]. split; [exact Hb|].
  intros lines. cbn. rewrite in_app_iff.
  intros [H|[H|[]]]; [apply Hw, H|discriminate H].
Qed.

Lemma clean_set_command c h : clean_state h -> clean_state (set_command c h).
Proof. exact (fun H => H). Qed.

Lemma clean_set_path p h : clean_state h -> clean_state (set_path p h).
Proof. exact (fun H => H). Qed.

Lemma clean_set_request_version v h :
  clean_state h -> clean_state (set_request_version v h).
Proof. exact (fun H => H). Qed.

Lemma clean_set_close_connection b h :
  clean_state h -> clean_state (set_close_connection b h).
Proof. exact (fun H => H). Qed.

Lemma clean_set_headers f h : clean_state h -> clean_state (set_headers f h).
Proof. exact (fun H => H). Qed.

Create HintDb clean.

#[local] Hint Resolve clean_send_response_only clean_send_header
  clean_end_headers clean_write_body started_send_response_only
  started_send_header clean_set_command clean_set_path
  clean_set_request_version clean_set_close_connection clean_set_headers
  : clean.

#[local] Hint Extern 1 (other_header _) =>
  (let v := fresh "v" in
   let H := fresh "H" in
   intros v H; vm_compute in H; discriminate H) : clean.

Section Clean.

Variable e : env.

Local Abbreviation base := SimpleHTTPRequestHandler.

Lemma clean_send_response code m h :
  clean_state h -> clean_state (send_response e code m h).
Proof. intros H. unfold send_response. auto with clean. Qed.

Lemma started_send_response code m h : started (send_response e code m h).
Proof. unfold send_response. auto with clean. Qed.

Hint Resolve clean_send_response started_send_response : clean.

Lemma clean_send_error code m x h :
  clean_state h -> clean_state (send_error (cls := base) e code m x h).
Proof.
  intros H. unfold send_error.
  repeat (split_branch; cbv zeta); auto 10 with clean.
Qed.

Hint Resolve clean_send_error : clean.

Lemma clean_list_directory p h :
  clean_state h -> clean_state (snd (list_directory (cls := base) e p h)).
Proof.
  intros H. unfold list_directory.
  repeat (split_branch; cbn [snd]); auto 10 with clean.
Qed.

Hint Resolve clean_list_directory : clean.

Lemma clean_send_head h :
  clean_state h -> clean_state (snd (send_head (cls := base) e h)).
Proof.
  intros H. unfold send_head.
  repeat (split_branch; cbn [snd]); auto 10 with clean.
Qed.

Lemma clean_do_GET h :
  clean_state h -> clean_state (do_GET (cls := base) e h).
Proof.
  intros H. unfold do_GET. pose proof (clean_send_head h H) as H'.
  destruct (send_head (cls := base) e h) as [[data|] h']; cbn [snd] in H';
    auto with clean.
Qed.

Lemma clean_do_HEAD h :
  clean_state h -> clean_state (do_HEAD (cls := base) e h).
Proof. apply clean_send_head. Qed.

Lemma clean_parse_request req h :
  clean_state h ->
  match parse_request (cls := base) e req h with
  | inl h' => clean_state h'
  | inr h' => clean_state h'
  end.
Proof.
  intros H. unfold parse_request, handle_expect_100.
  change (str_ge protocol_version "HTTP/1.1") with false.
  repeat (first [absurd_branch | split_branch; cbv zeta]);
    auto 10 with clean.
Qed.

Lemma clean_handle_one_request req h :
  clean_state h ->
  clean_state (handle_one_request (cls := base) e req h).
Proof.
  intros H. unfold handle_one_request.
  destruct (line_too_long req); [auto 10 with clean|].
  destruct (at_eof req); [auto with clean|].
  pose proof (clean_parse_request req h H) as H'.
  destruct (parse_request (cls := base) e req h) as [h'|h']; [exact H'|].
  destruct (command h') as [c|]; [|exact H'].
  destruct (String.eqb c "GET"); [apply clean_do_GET, H'|].
  destruct (String.eqb c "HEAD"); [apply clean_do_HEAD, H'|].
  auto with clean.
Qed.

End Clean.

Lemma clean_new_handler : clean_state new_handler.
Proof. split; [constructor|]. intros lines []. Qed.

Lemma in_removelast (l : list string) (x : string) :
  In x (removelast l) -> In x l.
Proof.
  induction l as [|a l IH]; [auto|]. cbn [removelast].
  destruct l as [|b l]; [intros []|].
  intros [<-|H]; [left; reflexivity|right; apply IH, H].
Qed.

Lemma bodies_add_cache_control (w : list chunk) :
  bodies (map add_cache_control w) = bodies w.
Proof.
  induction w as [|[l|b] w IH]; cbn; [reflexivity|exact IH|].
  rewrite IH. reflexivity.
Qed.

Lemma status_lines_add_cache_control (w : list chunk) :
  (forall lines, In (Headers lines) w -> library_block lines) ->
  status_lines (map add_cache_control w) = status_lines w.
Proof.
  induction w as [|[l|b] w IH]; intros H; cbn; [reflexivity| |].
  - rewrite IH by (intros lines Hin; apply H; right; exact Hin).
    f_equal. destruct (H l (or_introl eq_refl)) as (_ & _ & Hlen).
    destruct l as [|x [|y l]]; cbn in Hlen; try lia. reflexivity.
  - apply IH. intros lines Hin. apply H. right. exact Hin.
Qed.

(** X8.  In every header block the script's handler writes, the cache
    header stands exactly once, as the last line before the empty line that
    ends the block, after at least the status line. *)
Theorem cache_header_once_and_last (e : env) (req : request)
    (lines : list string) :
  In (Headers lines)
     (wfile (handle_one_request (cls := CustomHTTPRequestHandler)
               e req new_handler)) ->
  exists pre,
    lines = pre ++ [cache_control_line; CRLF]
    /\ ~ In cache_control_line pre
    /\ pre <> [].
Proof.
  rewrite script_handler_simulates. cbn [wfile script_view].
  rewrite in_map_iff. intros ([l|b] & E & Hin); cbn in E; [|discriminate E].
  injection E as <-.
  destruct (clean_handle_one_request e req new_handler clean_new_handler)
    as [_ Hblocks].
  destruct (Hblocks l Hin) as (Hclean & Hlast & Hlen).
  exists (removelast l). rewrite Hlast. split; [reflexivity|]. split.
  - intros H. apply in_removelast in H.
    unfold clean in Hclean. rewrite List.Forall_forall in Hclean.
    exact (Hclean _ H eq_refl).
  - destruct l as [|x [|y l]]; cbn in Hlen; try lia. discriminate.
Qed.

Lemma cache_header_once_and_last_witness :
  exists pre,
    [ "HTTP/1.0 301 Moved Permanently" +:+ CRLF;
      "Server: SimpleHTTP/0.6 Python/3.11.2" +:+ CRLF;
      "Date: Tue, 03 Nov 2026 09:30:00 GMT" +:+ CRLF;
      "Location: /assets/" +:+ CRLF;
      "Content-Length: 0" +:+ CRLF;
      cache_control_line;
      CRLF ]
    = pre ++ [cache_control_line; CRLF]
    /\ ~ In cache_control_line pre
    /\ pre <> [].
Proof.
  apply (cache_header_once_and_last (haven_site odd_platform)
           (request_of "GET /assets HTTP/1.0" ["GET"; "/assets"; "HTTP/1.0"])).
  vm_compute. left. reflexivity.
Defined.

(** X9.  Next to the library's handler, the script's handler changes
    nothing but the header blocks: for every request it leaves the same
    request version, command, path and decision to close the connection,
    writes the same number of chunks with the same body bytes, and starts
    each header block with the same status line. *)
Theorem override_changes_nothing_else (e : env) (req : request) :
  let answer :=
    handle_one_request (cls := CustomHTTPRequestHandler) e req new_handler in
  let plain :=
    handle_one_request (cls := SimpleHTTPRequestHandler) e req new_handler in
  request_version answer = request_version plain
  /\ command answer = command plain
  /\ path answer = path plain
  /\ close_connection answer = close_connection plain
  /\ length (wfile answer) = length (wfile plain)
  /\ bodies (wfile answer) = bodies (wfile plain)
  /\ status_lines (wfile answer) = status_lines (wfile plain).
Proof.
  intros answer plain. subst answer. rewrite script_handler_simulates.
  fold plain. cbn [request_version command path close_connection wfile
                   script_view].
  repeat split.
  - apply length_map.
  - apply bodies_add_cache_control.
  - apply status_lines_add_cache_control.
    apply (clean_handle_one_request e req new_handler clean_new_handler).
Qed.

(** ** One answer for each request *)

Section Once.

Variable e : env.

Local Abbreviation base := SimpleHTTPRequestHandler.

(** Brings the version, the command and the output of a chain of header
    methods down to those of the handler the chain started from. *)
Ltac unwind :=
  repeat match goal with
         | |- context [request_version (send_header ?k ?v ?h)] =>
             rewrite (proj1 (send_header_keeps k v h))
         | |- context [command (send_header ?k ?v ?h)] =>
             rewrite (proj1 (proj2 (send_header_keeps k v h)))
         | |- context [wfile (send_header ?k ?v ?h)] =>
             rewrite (proj2 (proj2 (send_header_keeps k v h)))
         | |- context [request_version (send_response e ?c ?m ?h)] =>
             rewrite (proj1 (send_response_keeps e c m h))
         | |- context [command (send_response e ?c ?m ?h)] =>
             rewrite (proj1 (proj2 (send_response_keeps e c m h)))
         | |- context [wfile (send_response e ?c ?m ?h)] =>
             rewrite (proj2 (proj2 (send_response_keeps e c m h)))
         | |- context [request_version (send_response_only ?c ?m ?h)] =>
             rewrite (proj1 (send_response_only_keeps c m h))
         | |- context [command (send_response_only ?c ?m ?h)] =>
             rewrite (proj1 (proj2 (send_response_only_keeps c m h)))
         | |- context [wfile (send_response_only ?c ?m ?h)] =>
             rewrite (proj2 (proj2 (send_response_only_keeps c m h)))
         end.

Lemma sends_end_headers h0 h :
  request_version h = request_version h0 ->
  command h = command h0 ->
  wfile h = wfile h0 ->
  sends_headers h0 (end_headers (RequestHandlerClass := base) h).
Proof.
  intros V C W. destruct (end_headers_writes h) as (V' & C' & W').
  split; [congruence|]. split; [congruence|].
  rewrite W', V, W. unfold headers_out.
  destruct (String.eqb (request_version h0) "HTTP/0.9").
  - exists []. rewrite app_nil_r. split; reflexivity.
  - eexists. split; [reflexivity|]. eauto.
Qed.

Lemma once_of_sends h h' : sends_headers h h' -> answers_once h h'.
Proof.
  intros (V & C & out & W & H). split; [exact V|]. split; [exact C|].
  exists out. split; [exact W|]. left. exact H.
Qed.

Lemma once_write h0 h b :
  sends_headers h0 h -> answers_once h0 (write (Body b) h).
Proof.
  intros (V & C & out & W & H). split; [exact V|]. split; [exact C|].
  exists (out ++ [Body b]). cbn [write wfile]. rewrite W, app_assoc.
  split; [reflexivity|]. right. eauto.
Qed.

Lemma is_command_same name h h' :
  command h' = command h -> is_command name h' = is_command name h.
Proof. unfold is_command. intros ->. reflexivity. Qed.

Lemma sends_send_error code m x h :
  answers_once h (send_error (cls := base) e code m x h)
  /\ (is_command "HEAD" h = true ->
      sends_headers h (send_error (cls := base) e code m x h)).
Proof.
  unfold send_error.
  destruct (responses code) as [[shortmsg longmsg]|];
    destruct ((200 <=? code)
              && negb ((code =? 204) || (code =? 205) || (code =? 304)));
    cbv zeta.
  all: match goal with
       | |- context [end_headers ?X] =>
           assert (Hs : sends_headers h
                          (end_headers (RequestHandlerClass := base) X))
             by (apply sends_end_headers; unwind; reflexivity)
       end.
  all: try (split; [apply once_of_sends, Hs|intros _; exact Hs]).
  all: match goal with
       | |- context [is_command "HEAD" ?Y] =>
           rewrite (is_command_same "HEAD" h Y)
             by (destruct Hs as (_ & C & _); exact C)
       end.
  all: destruct (is_command "HEAD" h); cbn [negb andb].
  all: try (split; [apply once_of_sends, Hs|intros _; exact Hs]).
  all: match goal with
       | |- context [if ?c then _ else _] => destruct c
       end.
  all: split; first [apply once_write, Hs | apply once_of_sends, Hs
                    | discriminate].
Qed.

Lemma head_sent_list_directory p h :
  head_sent h (list_directory (cls := base) e p h).
Proof.
  unfold list_directory.
  destruct (directory_page e p (path h)); cbn [head_sent].
  - apply sends_end_headers; unwind; reflexivity.
  - apply sends_send_error.
Qed.

Lemma head_sent_send_head h : head_sent h (send_head (cls := base) e h).
Proof.
  unfold send_head.
  repeat split_branch.
  all: first
         [ apply head_sent_list_directory
         | cbn [head_sent]; apply sends_send_error
         | cbn [head_sent]; apply sends_end_headers; unwind; reflexivity
         | cbn [head_sent];
           assert (Hs : forall X,
                      request_version X = request_version h ->
                      command X = command h -> wfile X = wfile h ->
                      sends_headers h
                        (end_headers (RequestHandlerClass := base) X))
             by (intros X; apply sends_end_headers);
           split; [apply once_of_sends|intros _];
           apply Hs; unwind; reflexivity ].
Qed.

Lemma once_do_GET h : answers_once h (do_GET (cls := base) e h).
Proof.
  unfold do_GET. pose proof (head_sent_send_head h) as H.
  destruct (send_head (cls := base) e h) as [[data|] h']; cbn [head_sent] in H.
  - apply once_write, H.
  - apply H.
Qed.

Lemma once_do_HEAD h :
  answers_once h (do_HEAD (cls := base) e h)
  /\ (is_command "HEAD" h = true ->
      sends_headers h (do_HEAD (cls := base) e h)).
Proof.
  unfold do_HEAD. pose proof (head_sent_send_head h) as H.
  destruct (send_head (cls := base) e h) as [[data|] h']; cbn [head_sent] in H;
    cbn [snd].
  - split; [apply once_of_sends, H|intros _; exact H].
  - exact H.
Qed.

Lemma one_answer_of_once h h' :
  wfile h = [] -> answers_once h h' -> one_answer h'.
Proof.
  intros W (V & _ & out & W' & H). right. rewrite V, W', W. exact H.
Qed.

Lemma head_answer_of_sends h h' :
  wfile h = [] ->
  command h' = command h ->
  (is_command "HEAD" h = true -> sends_headers h h') ->
  head_answer h'.
Proof.
  intros W C H Hh. rewrite (is_command_same "HEAD" h h' C) in Hh.
  destruct (H Hh) as (V & _ & out & W' & Ho).
  right. rewrite V, W', W. exact Ho.
Qed.

Lemma send_error_one_answer code m x h :
  wfile h = [] ->
  one_answer (send_error (cls := base) e code m x h)
  /\ head_answer (send_error (cls := base) e code m x h).
Proof.
  intros W. destruct (sends_send_error code m x h) as [H1 H2]. split.
  - exact (one_answer_of_once h _ W H1).
  - apply (head_answer_of_sends h _ W); [|exact H2].
    destruct H1 as (_ & C & _). exact C.
Qed.

Lemma nothing_written h :
  wfile h = [] -> one_answer h /\ head_answer h.
Proof. intros W. split; [left; exact W|intros _; left; exact W]. Qed.

Lemma parse_request_one_answer req h :
  wfile h = [] ->
  match parse_request (cls := base) e req h with
  | inl h' => one_answer h' /\ head_answer h'
  | inr h' => wfile h' = []
  end.
Proof.
  intros W. unfold parse_request.
  change (str_ge protocol_version "HTTP/1.1") with false.
  reduce_state.
  repeat (first [absurd_branch | split_branch; reduce_state]).
  all: first
         [ exact W
         | apply nothing_written; exact W
         | apply send_error_one_answer; reduce_state; exact W ].
Qed.

Lemma handle_one_request_one_answer req h :
  wfile h = [] ->
  one_answer (handle_one_request (cls := base) e req h)
  /\ head_answer (handle_one_request (cls := base) e req h).
Proof.
  intros W. unfold handle_one_request.
  destruct (line_too_long req).
  { apply send_error_one_answer. exact W. }
  destruct (at_eof req); [apply nothing_written; exact W|].
  pose proof (parse_request_one_answer req h W) as H.
  destruct (parse_request (cls := base) e req h) as [h'|h']; [exact H|].
  destruct (command h') as [c|] eqn:Ec; [|apply nothing_written; exact H].
  destruct (String.eqb_spec c "GET") as [->|_].
  { pose proof (once_do_GET h') as HG. split.
    - exact (one_answer_of_once h' _ H HG).
    - intros Hh. destruct HG as (_ & C & _).
      rewrite (is_command_same "HEAD" h' _ C) in Hh.
      unfold is_command in Hh. rewrite Ec in Hh. discriminate Hh. }
  destruct (String.eqb c "HEAD").
  { destruct (once_do_HEAD h') as [H1 H2]. split.
    - exact (one_answer_of_once h' _ H H1).
    - apply (head_answer_of_sends h' _ H); [|exact H2].
      destruct H1 as (_ & C & _). exact C. }
  apply send_error_one_answer. exact H.
Qed.

End Once.

(** X10.  Each request gets at most one answer from the script's handler.
    When the handler's request version is HTTP/0.9 the answer is body bytes
    at most, with no header block; otherwise it is one header block, which
    has the cache header, followed by at most one chunk of body. *)
Theorem one_response_per_request (e : env) (req : request) :
  let answer :=
    handle_one_request (cls := CustomHTTPRequestHandler) e req new_handler in
  (request_version answer = "HTTP/0.9" ->
   wfile answer = [] \/ exists b, wfile answer = [Body b])
  /\ (request_version answer <> "HTTP/0.9" ->
      wfile answer = []
      \/ exists lines,
           In cache_control_line lines
           /\ (wfile answer = [Headers lines]
               \/ exists b, wfile answer = [Headers lines; Body b])).
Proof.
  intros answer. subst answer. rewrite script_handler_simulates.
  destruct (handle_one_request_one_answer e req new_handler eq_refl)
    as [Hone _].
  set (plain := handle_one_request (cls := SimpleHTTPRequestHandler)
                  e req new_handler) in *.
  cbn [request_version wfile script_view].
  unfold one_answer, answer_out, headers_out in Hone.
  split.
  - intros Hv. rewrite Hv in Hone. cbn in Hone.
    destruct Hone as [H|[H|(out0 & b & H0 & H)]]; rewrite H;
      [left; reflexivity|left; reflexivity|].
    rewrite H0. right. exists b. reflexivity.
  - intros Hv. apply String.eqb_neq in Hv. rewrite Hv in Hone.
    destruct Hone as [H|[(l & H)|(out0 & b & (l & H0) & H)]]; rewrite H;
      [left; reflexivity| |rewrite H0]; right;
      cbn [map add_cache_control app];
      exists (removelast l ++ [cache_control_line; List.last l CRLF]);
      (split; [apply in_or_app; right; left; reflexivity|]); eauto.
Qed.

Lemma one_response_per_request_witness :
  wfile (handle_one_request (cls := CustomHTTPRequestHandler)
           (haven_site odd_platform) simple_get new_handler) = []
  \/ exists b,
       wfile (handle_one_request (cls := CustomHTTPRequestHandler)
                (haven_site odd_platform) simple_get new_handler)
       = [Body b].
Proof.
  apply (proj1 (one_response_per_request (haven_site odd_platform)
                  simple_get)).
  vm_compute. reflexivity.
Defined.



(** * More on the MIME table *)

(** X12.  A path that ends in [.js], [.mjs] or [.webmanifest] after a file
    name that has a character other than the dot gets the registered type
    from [guess_type], whatever the platform's table holds. *)
Theorem registered_type_by_file_name (platform_default : gmap string string)
    (root : string) :
  has_name root ->
  local_path (root +:+ ".js") ->
  local_path (root +:+ ".mjs") ->
  local_path (root +:+ ".webmanifest") ->
  guess_type (startup_types_map platform_default) (root +:+ ".js")
  = "application/javascript"
  /\ guess_type (startup_types_map platform_default) (root +:+ ".mjs")
     = "application/javascript"
  /\ guess_type (startup_types_map platform_default)
                (root +:+ ".webmanifest")
     = "application/manifest+json".
Proof.
  intros Hroot H1 H2 H3.
  destruct (guess_type_by_name platform_default root Hroot) as (G1 & G2 & G3).
  auto.
Qed.

Lemma registered_type_by_file_name_witness :
  guess_type (startup_types_map odd_platform) ("/opt/haven/app" +:+ ".js")
  = "application/javascript"
  /\ guess_type (startup_types_map odd_platform) ("/opt/haven/app" +:+ ".mjs")
     = "application/javascript"
  /\ guess_type (startup_types_map odd_platform)
                ("/opt/haven/app" +:+ ".webmanifest")
     = "application/manifest+json".
Proof.
  apply (registered_type_by_file_name odd_platform "/opt/haven/app").
  - exists "/opt/haven/", "a"%char, "pp".
    split; [reflexivity|]. split; [discriminate|]. split; [discriminate|].
    reflexivity.
  - vm_compute. exact I.
  - vm_compute. exact I.
  - vm_compute. exact I.
Defined.

(** Two tables are asked for the same key by [mimetypes.guess_type]. *)
Lemma mimetypes_guess_type_key (t1 t2 : gmap string string) (url : string) :
  mimetypes.guess_type t1 url = mimetypes.guess_type t2 url
  \/ exists key enc,
       mimetypes.guess_type t1 url = Some (t1 !! key, enc)
       /\ mimetypes.guess_type t2 url = Some (t2 !! key, enc).
Proof.
  unfold mimetypes.guess_type.
  destruct (_splittype url) as [scheme rest].
  destruct (match scheme with
            | Some t => String.eqb t "data"
            | None => false
            end); [left; reflexivity|].
  destruct (splitext rest) as [base ext].
  destruct (mimetypes.expand_suffix (String.length rest) base ext)
    as [[base' ext']|]; [|left; reflexivity].
  destruct (mimetypes.encodings_map !! ext'); right; eauto.
Qed.

(** X13.  The three registrations change the content type of no file except
    to one of the two registered types: for every path, [guess_type] over
    the table after startup answers as over the platform's own table, or
    answers [application/javascript] or [application/manifest+json]. *)
Theorem registration_reaches_only_registered
    (platform_default : gmap string string) (p : string) :
  guess_type (startup_types_map platform_default) p
  = guess_type platform_default p
  \/ guess_type (startup_types_map platform_default) p
     = "application/javascript"
  \/ guess_type (startup_types_map platform_default) p
     = "application/manifest+json".
Proof.
  unfold guess_type.
  destruct (splitext p) as [base ext].
  destruct (extensions_map !! ext); [left; reflexivity|].
  destruct (extensions_map !! lower ext); [left; reflexivity|].
  destruct (mimetypes_guess_type_key (startup_types_map platform_default)
              platform_default p) as [->|(key & enc & -> & ->)];
    [left; reflexivity|].
  destruct (decide (key = ".js")) as [->|Hjs].
  { right. left.
    rewrite (startup_types_map_overrides platform_default ".js"
               "application/javascript") by (left; split; reflexivity).
    reflexivity. }
  destruct (decide (key = ".mjs")) as [->|Hmjs].
  { right. left.
    rewrite (startup_types_map_overrides platform_default ".mjs"
               "application/javascript")
      by (right; left; split; reflexivity).
    reflexivity. }
  destruct (decide (key = ".webmanifest")) as [->|Hman].
  { right. right.
    rewrite (startup_types_map_overrides platform_default ".webmanifest"
               "application/manifest+json")
      by (right; right; split; reflexivity).
    reflexivity. }
  left. rewrite startup_types_map_elsewhere by assumption. reflexivity.
Qed.

(** X14.  Registering the three types again changes nothing, and so does
    registering them on a platform whose table has them already. *)
Theorem registration_is_idempotent (platform_default : gmap string string) :
  startup_types_map (startup_types_map platform_default)
  = startup_types_map platform_default
  /\ (platform_default !! ".js" = Some "application/javascript" ->
      platform_default !! ".mjs" = Some "application/javascript" ->
      platform_default !! ".webmanifest" = Some "application/manifest+json" ->
      startup_types_map platform_default = platform_default).
Proof.
  assert (Hknown : forall d : gmap string string,
             d !! ".js" = Some "application/javascript" ->
             d !! ".mjs" = Some "application/javascript" ->
             d !! ".webmanifest" = Some "application/manifest+json" ->
             startup_types_map d = d).
  { intros d H1 H2 H3. apply map_eq. intros k.
    destruct (decide (k = ".js")) as [->|Hjs];
      [rewrite H1; apply startup_types_map_overrides; left; auto|].
    destruct (decide (k = ".mjs")) as [->|Hmjs];
      [rewrite H2; apply startup_types_map_overrides; right; left; auto|].
    destruct (decide (k = ".webmanifest")) as [->|Hman];
      [rewrite H3; apply startup_types_map_overrides; right; right; auto|].
    apply startup_types_map_elsewhere; assumption. }
  split; [|apply Hknown].
  apply Hknown; apply startup_types_map_overrides; unfold overridden; tauto.
Qed.

Lemma registration_is_idempotent_witness :
  startup_types_map python311_defaults = python311_defaults.
Proof.
  apply (proj2 (registration_is_idempotent python311_defaults));
    reflexivity.
Defined.
